(** * ASANN [structure_reader]: a shallow embedding and its specification

    The module [asann/structure_reader.py] is a thin adapter over two
    chemistry libraries (ASE and pymatgen).  Everything it does is control
    flow around library calls: optional imports at module load, an abstract
    base class with one concrete dispatching method, two adapters, and a
    factory.  The libraries themselves are outside the repository; they
    appear here as interfaces ([AseLibrary], [PymatgenLibrary]) and as an
    [installation] that says what each [import] statement yields.

    Python effects are modelled by one small monad [py S A]: a computation
    over a mutable store [S] (the module globals at load time, the object
    [self] inside a method) that either returns a value or raises. *)

From Stdlib Require Import String List Bool.
From stdpp Require Import base option strings gmap.

Local Open Scope string_scope.

(** ** Exceptions *)

(** The exception classes the module can meet, with the builtin hierarchy
    they sit in.  [Derived name base] is a class defined by a library
    (or a user) by subclassing [base]. *)
Inductive exn_class : Type :=
  | BaseException
  | Exception
  | ImportError
  | ModuleNotFoundError
  | ValueError
  | UnicodeError
  | TypeError
  | AttributeError
  | NameError
  | AssertionError
  | RuntimeError
  | NotImplementedError
  | OSError
  | FileNotFoundError
  | Derived (name : string) (base : exn_class).

#[global] Instance exn_class_eq_dec : EqDecision exn_class.
Proof. solve_decision. Defined.

(** Method resolution order: the class followed by its ancestors. *)
Fixpoint mro (c : exn_class) : list exn_class :=
  match c with
  | BaseException => [BaseException]
  | Exception => [Exception; BaseException]
  | ImportError => [ImportError; Exception; BaseException]
  | ModuleNotFoundError =>
      [ModuleNotFoundError; ImportError; Exception; BaseException]
  | ValueError => [ValueError; Exception; BaseException]
  | UnicodeError => [UnicodeError; ValueError; Exception; BaseException]
  | TypeError => [TypeError; Exception; BaseException]
  | AttributeError => [AttributeError; Exception; BaseException]
  | NameError => [NameError; Exception; BaseException]
  | AssertionError => [AssertionError; Exception; BaseException]
  | RuntimeError => [RuntimeError; Exception; BaseException]
  | NotImplementedError =>
      [NotImplementedError; RuntimeError; Exception; BaseException]
  | OSError => [OSError; Exception; BaseException]
  | FileNotFoundError => [FileNotFoundError; OSError; Exception; BaseException]
  | Derived _ base => c :: mro base
  end.

Definition issubclass (c d : exn_class) : bool :=
  existsb (fun a => bool_decide (a = d)) (mro c).

(** A raised exception: its class and its message. *)
Record exn : Type := mk_exn { exn_type : exn_class; exn_msg : string }.

#[global] Instance exn_eq_dec : EqDecision exn.
Proof. solve_decision. Defined.

(** [isinstance e c] is what an [except c:] clause tests. *)
Definition isinstance (e : exn) (c : exn_class) : bool :=
  issubclass (exn_type e) c.

(** ** Outcomes and the effect monad *)

Inductive result (A : Type) : Type :=
  | Return (a : A)
  | Raise (e : exn).
Arguments Return {A} a.
Arguments Raise {A} e.

Definition py (S A : Type) : Type := S -> S * result A.

Definition py_ret {S A} (a : A) : py S A := fun s => (s, Return a).

Definition py_bind {S A B} (m : py S A) (k : A -> py S B) : py S B :=
  fun s =>
    match m s with
    | (s', Return a) => k a s'
    | (s', Raise e) => (s', Raise e)
    end.

Definition raise {S A} (e : exn) : py S A := fun s => (s, Raise e).

(** A library call: it does not touch the store, and may raise. *)
Definition call {S A} (r : result A) : py S A := fun s => (s, r).

Definition gets {S A} (f : S -> A) : py S A := fun s => (s, Return (f s)).

Definition modify {S} (f : S -> S) : py S unit := fun s => (f s, Return tt).

(** [try: body / except cls: handler].  The handler runs in the store the
    body left behind; exceptions that are not instances of [cls] escape. *)
Definition try_except {S A} (body : py S A) (cls : exn_class)
    (handler : py S A) : py S A :=
  fun s =>
    match body s with
    | (s', Return a) => (s', Return a)
    | (s', Raise e) => if isinstance e cls then handler s' else (s', Raise e)
    end.

(** [assert(cond)] *)
Definition assert {S} (cond : bool) : py S unit :=
  if cond then py_ret tt else raise (mk_exn AssertionError "").

Declare Scope py_scope.
Delimit Scope py_scope with py.
Notation "x <- m ;; k" := (py_bind m (fun x => k))
  (at level 100, m at next level, right associativity) : py_scope.
Notation "m ;; k" := (py_bind m (fun _ => k))
  (at level 100, right associativity) : py_scope.
Local Open Scope py_scope.

(** ** The two libraries

    Neither library is part of the repository.  Each is an interface: the
    types of its objects, the attributes the adapters read (total on an
    object that has them) and the methods they call (which may raise). *)

Class AseLibrary : Type := {
  Atoms : Type;
  Cell : Type;
  Positions : Type;
  (** attribute [pbc]: one flag per cell direction *)
  atoms_pbc : Atoms -> list bool;
  (** attribute [cell] *)
  atoms_cell : Atoms -> Cell;
  get_scaled_positions : Atoms -> result Positions;
  get_positions : Atoms -> result Positions
}.

Class PymatgenLibrary : Type := {
  Structure : Type;
  Molecule : Type;
  ndarray : Type;
  (** [s.lattice.matrix] *)
  lattice_matrix : Structure -> ndarray;
  (** attribute [frac_coords]; a [Molecule] has none *)
  structure_frac_coords : Structure -> ndarray;
  (** attribute [cart_coords] *)
  structure_cart_coords : Structure -> ndarray;
  molecule_cart_coords : Molecule -> ndarray
}.

(** What [import ase.io] binds: the module with its [read] function. *)
Record ase_io `{AseLibrary} : Type := {
  read : string -> result Atoms
}.

(** What [import pymatgen] binds: the classes with their [from_file]. *)
Record pymatgen `{PymatgenLibrary} : Type := {
  Structure_from_file : string -> result Structure;
  Molecule_from_file : string -> result Molecule
}.

(** The Python installation: the outcome of each of the two imports. *)
Record installation `{AseLibrary} `{PymatgenLibrary} : Type := {
  import_ase_io : result ase_io;
  import_pymatgen : result pymatgen
}.

(** ** Module load *)

(** The module namespace while the top-level statements run: the global
    names bound so far and the warnings issued.  The three flags are
    ordinary global names, bound only once an assignment to them has run. *)
Record namespace : Type := {
  globals : gmap string bool;
  warnings : list (string * string)
}.

Definition lookup_global (name : string) : py namespace bool :=
  fun m =>
    match globals m !! name with
    | Some b => (m, Return b)
    | None => (m, Raise (mk_exn NameError name))
    end.

Definition assign_global (name : string) (b : bool) : py namespace unit :=
  modify (fun m =>
    {| globals := <[name := b]> (globals m); warnings := warnings m |}).

(** [warnings.warn(message, category=...)] *)
Definition warn (message category : string) : py namespace unit :=
  modify (fun m =>
    {| globals := globals m; warnings := warnings m ++ [(message, category)] |}).

Section ModuleLoad.
Context `{AseLibrary} `{PymatgenLibrary}.
Variable env : installation.

(** The top-level statements of the module, lines 10 to 30. *)
Definition module_body : py namespace unit :=
  assign_global "_has_reader" false ;;
  try_except
    (call (import_ase_io env) ;;
     assign_global "_has_ase" true ;;
     assign_global "_has_reader" true)
    ImportError
    (assign_global "_has_ase" false ;;
     warn "Unable to import ASE for reading file structure, trying other librairies"
          "ImportWarning") ;;
  has_reader <- lookup_global "_has_reader" ;;
  (if negb has_reader then
     try_except
       (call (import_pymatgen env) ;;
        assign_global "_has_pymatgen" true ;;
        assign_global "_has_reader" true)
       ImportError
       (assign_global "_has_pymatgen" false ;;
        warn "Unable to import Pymatgen for reading file structure, trying other librairies"
             "ImportWarning")
   else py_ret tt) ;;
  has_reader <- lookup_global "_has_reader" ;;
  if negb has_reader then
    raise (mk_exn NotImplementedError
             "Cannot find any suitable library for reading file structures")
  else py_ret tt.

(** [import asann.structure_reader]: the namespace of the loaded module,
    or the exception that escaped its body (and then no module). *)
Definition import_module : result namespace :=
  match module_body {| globals := ∅; warnings := [] |} with
  | (m, Return _) => Return m
  | (_, Raise e) => Raise e
  end.
End ModuleLoad.

(** The namespace after [import ase.io] succeeded: [_has_pymatgen] is
    never assigned. *)
Definition loaded_with_ase : namespace :=
  {| globals := {[ "_has_reader" := true; "_has_ase" := true ]};
     warnings := [] |}.

(** The namespace after ASE failed to import and pymatgen succeeded. *)
Definition loaded_with_pymatgen : namespace :=
  {| globals := {[ "_has_reader" := true; "_has_ase" := false;
                   "_has_pymatgen" := true ]};
     warnings := [("Unable to import ASE for reading file structure, trying other librairies",
                   "ImportWarning")] |}.

(** ** Object construction *)

(** [cls(filename)], as [type.__call__] does it: allocate, run [__init__]
    on the new object, and insist that [__init__] returned [None]. *)
Definition type_call {Self : Type} (new : Self)
    (init : py Self (option Self)) : result Self :=
  match init new with
  | (self, Return None) => Return self
  | (_, Return (Some _)) =>
      Raise (mk_exn TypeError "__init__() should return None")
  | (_, Raise e) => Raise e
  end.

(** ** The abstract base class *)

Module AbstractStructure.
(** The capability interface: what a concrete class has to provide.
    [new] is the freshly allocated object, on which the class attributes
    [structure = None] and [pbc_enabled = False] are what a read finds. *)
Class t (Self Matrix Coords : Type) : Type := {
  new : Self;
  pbc_enabled : Self -> bool;
  __init__ : string -> py Self (option Self);
  get_cell_matrix : py Self (option Matrix);
  get_frac_coords : py Self Coords;
  get_cart_coords : py Self Coords
}.

(** The class method [from_file(cls, filename)]: [cls(filename)]. *)
Definition from_file {Self Matrix Coords : Type} (cls : t Self Matrix Coords)
    (filename : string) : result Self :=
  type_call new (__init__ filename).

(** The one concrete method; its two calls go through the class of [self]. *)
Definition get_coords {Self Matrix Coords : Type} {cls : t Self Matrix Coords}
    : py Self Coords :=
  enabled <- gets pbc_enabled ;;
  if enabled then get_frac_coords else get_cart_coords.
End AbstractStructure.

(** The builtin [all] on a sequence of flags. *)
Definition all (flags : list bool) : bool := forallb id flags.

Definition no_attribute {S A} (name : string) : py S A :=
  raise (mk_exn AttributeError name).

(** ** The ASE adapter *)

Module AseStructure.
Section Adapter.
Context `{AseLibrary} `{PymatgenLibrary}.
Variable env : installation.

(** [structure] holds [None] until [__init__] stores the atoms object. *)
Record t : Type := {
  structure : option Atoms;
  pbc_enabled : bool
}.

Definition new : t := {| structure := None; pbc_enabled := false |}.

Definition set_structure (v : option Atoms) : py t unit :=
  modify (fun self => {| structure := v; pbc_enabled := pbc_enabled self |}).

Definition set_pbc_enabled (b : bool) : py t unit :=
  modify (fun self => {| structure := structure self; pbc_enabled := b |}).

(** [self.structure.<attr>]: an attribute or bound method of the atoms
    object; [None] has neither. *)
Definition structure_attr {A : Type} (name : string) (attr : Atoms -> A) : py t A :=
  s <- gets structure ;;
  match s with
  | Some atoms => py_ret (attr atoms)
  | None => no_attribute name
  end.

Definition __init__ (filename : string) : py t (option t) :=
  ase_io <- call (import_ase_io env) ;;
  atoms <- call (read ase_io filename) ;;
  set_structure (Some atoms) ;;
  pbc <- structure_attr "pbc" atoms_pbc ;;
  set_pbc_enabled (all pbc) ;;
  py_ret None.

Definition get_cell_matrix : py t (option Cell) :=
  enabled <- gets pbc_enabled ;;
  if enabled then
    cell <- structure_attr "cell" atoms_cell ;;
    py_ret (Some cell)
  else py_ret None.

Definition get_frac_coords : py t Positions :=
  enabled <- gets pbc_enabled ;;
  assert enabled ;;
  method <- structure_attr "get_scaled_positions" get_scaled_positions ;;
  call method.

Definition get_cart_coords : py t Positions :=
  method <- structure_attr "get_positions" get_positions ;;
  call method.

(** [self] is what [__init__], run on a fresh object for [filename], left
    behind when it reached its end. *)
Definition initialised (filename : string) (self : t) : Prop :=
  exists r, __init__ filename new = (self, Return r).

#[export] Instance cls : AbstractStructure.t t Cell Positions := {|
  AbstractStructure.new := new;
  AbstractStructure.pbc_enabled := pbc_enabled;
  AbstractStructure.__init__ := __init__;
  AbstractStructure.get_cell_matrix := get_cell_matrix;
  AbstractStructure.get_frac_coords := get_frac_coords;
  AbstractStructure.get_cart_coords := get_cart_coords
|}.
End Adapter.
End AseStructure.

(** ** The pymatgen adapter *)

Module PymatgenStructure.
Section Adapter.
Context `{AseLibrary} `{PymatgenLibrary}.
Variable env : installation.

(** What [structure] can hold: [None], a periodic [Structure], or a
    [Molecule]. *)
Inductive value : Type :=
  | NoneType
  | a_Structure (s : Structure)
  | a_Molecule (m : Molecule).

Record t : Type := {
  structure : value;
  pbc_enabled : bool
}.

Definition new : t := {| structure := NoneType; pbc_enabled := false |}.

Definition set_structure (v : value) : py t unit :=
  modify (fun self => {| structure := v; pbc_enabled := pbc_enabled self |}).

Definition set_pbc_enabled (b : bool) : py t unit :=
  modify (fun self => {| structure := structure self; pbc_enabled := b |}).

Definition __init__ (filename : string) : py t (option t) :=
  pym <- call (import_pymatgen env) ;;
  try_except
    (s <- call (Structure_from_file pym filename) ;;
     set_structure (a_Structure s) ;;
     set_pbc_enabled true)
    ValueError
    (m <- call (Molecule_from_file pym filename) ;;
     set_structure (a_Molecule m) ;;
     set_pbc_enabled false) ;;
  self <- gets id ;;
  py_ret (Some self).

Definition get_cell_matrix : py t (option ndarray) :=
  enabled <- gets pbc_enabled ;;
  if enabled then
    s <- gets structure ;;
    match s with
    | a_Structure s => py_ret (Some (lattice_matrix s))
    | a_Molecule _ | NoneType => no_attribute "lattice"
    end
  else py_ret None.

Definition get_frac_coords : py t ndarray :=
  enabled <- gets pbc_enabled ;;
  assert enabled ;;
  s <- gets structure ;;
  match s with
  | a_Structure s => py_ret (structure_frac_coords s)
  | a_Molecule _ | NoneType => no_attribute "frac_coords"
  end.

Definition get_cart_coords : py t ndarray :=
  s <- gets structure ;;
  match s with
  | a_Structure s => py_ret (structure_cart_coords s)
  | a_Molecule m => py_ret (molecule_cart_coords m)
  | NoneType => no_attribute "cart_coords"
  end.

(** [self] is what [__init__], run on a fresh object for [filename], left
    behind when it reached its end. *)
Definition initialised (filename : string) (self : t) : Prop :=
  exists r, __init__ filename new = (self, Return r).

#[export] Instance cls : AbstractStructure.t t ndarray ndarray := {|
  AbstractStructure.new := new;
  AbstractStructure.pbc_enabled := pbc_enabled;
  AbstractStructure.__init__ := __init__;
  AbstractStructure.get_cell_matrix := get_cell_matrix;
  AbstractStructure.get_frac_coords := get_frac_coords;
  AbstractStructure.get_cart_coords := get_cart_coords
|}.
End Adapter.
End PymatgenStructure.

(** ** The factory *)

Section Factory.
Context `{AseLibrary} `{PymatgenLibrary}.
Variable env : installation.

(** A structure handler: an object of one of the two concrete classes. *)
Inductive handler : Type :=
  | Ase (self : AseStructure.t)
  | Pymatgen (self : PymatgenStructure.t).

(** [structure_from_file(filename)].  The last [py_ret None] is the
    function body running off its end. *)
Definition structure_from_file (filename : string) : py namespace (option handler) :=
  has_ase <- lookup_global "_has_ase" ;;
  if has_ase then
    self <- call (AbstractStructure.from_file (AseStructure.cls env) filename) ;;
    py_ret (Some (Ase self))
  else
    has_pymatgen <- lookup_global "_has_pymatgen" ;;
    if has_pymatgen then
      self <- call (AbstractStructure.from_file (PymatgenStructure.cls env) filename) ;;
      py_ret (Some (Pymatgen self))
    else py_ret None.

(** A client of the module: it imports the module and then runs
    [program] against the namespace the import produced.  When the import
    raises there is no module, and nothing of the client runs. *)
Definition run_client {A : Type} (program : py namespace A) : result A :=
  match import_module env with
  | Return m => snd (program m)
  | Raise e => Raise e
  end.
End Factory.

Definition result_map {A B : Type} (f : A -> B) (r : result A) : result B :=
  match r with
  | Return a => Return (f a)
  | Raise e => Raise e
  end.

(** ** Sample libraries and installations

    Small concrete libraries on which the statements below can be run. *)

Module Sample.
(** An atoms object is its three periodicity flags and a label from which
    its cell and positions are named. *)
#[export] Instance ase : AseLibrary := {|
  Atoms := list bool * string;
  Cell := string;
  Positions := string;
  atoms_pbc := fst;
  atoms_cell := fun a => "cell of " ++ snd a;
  get_scaled_positions := fun a => Return ("scaled positions of " ++ snd a);
  get_positions := fun a => Return ("positions of " ++ snd a)
|}.

#[export] Instance pym : PymatgenLibrary := {|
  Structure := string;
  Molecule := string;
  ndarray := string;
  lattice_matrix := fun s => "lattice of " ++ s;
  structure_frac_coords := fun s => "frac_coords of " ++ s;
  structure_cart_coords := fun s => "cart_coords of " ++ s;
  molecule_cart_coords := fun m => "cart_coords of " ++ m
|}.

Definition no_module (name : string) : exn :=
  mk_exn ModuleNotFoundError ("No module named " ++ name).

Definition no_file (filename : string) : exn :=
  mk_exn FileNotFoundError filename.

(** [ase.io.read]: a crystal, a slab periodic in two directions, a
    molecule, and nothing else. *)
Definition ase_read (filename : string) : result (list bool * string) :=
  if String.eqb filename "crystal.cif" then Return ([true; true; true], "crystal")
  else if String.eqb filename "slab.traj" then Return ([true; true; false], "slab")
  else if String.eqb filename "water.xyz" then Return ([false; false; false], "water")
  else Raise (no_file filename).

(** [pymatgen.Structure.from_file]: an xyz file has no unit cell, and a
    file of unknown extension is refused with the same exception class. *)
Definition pym_Structure_from_file (filename : string) : result string :=
  if String.eqb filename "crystal.cif" then Return "crystal"
  else if String.eqb filename "water.xyz" then
    Raise (mk_exn ValueError "Invalid format")
  else if String.eqb filename "notes.txt" then
    Raise (mk_exn ValueError "Unrecognized file extension")
  else Raise (no_file filename).

Definition pym_Molecule_from_file (filename : string) : result string :=
  if String.eqb filename "water.xyz" then Return "water"
  else if String.eqb filename "notes.txt" then
    Raise (mk_exn (Derived "ParseError" Exception) "Cannot determine file type")
  else Raise (no_file filename).

Definition ase_module : ase_io := {| read := ase_read |}.

Definition pymatgen_module : pymatgen := {|
  Structure_from_file := pym_Structure_from_file;
  Molecule_from_file := pym_Molecule_from_file
|}.

Definition both_installed : installation := {|
  import_ase_io := Return ase_module;
  import_pymatgen := Return pymatgen_module
|}.

Definition ase_only : installation := {|
  import_ase_io := Return ase_module;
  import_pymatgen := Raise (no_module "pymatgen")
|}.

Definition pymatgen_only : installation := {|
  import_ase_io := Raise (no_module "ase");
  import_pymatgen := Return pymatgen_module
|}.

Definition nothing_installed : installation := {|
  import_ase_io := Raise (no_module "ase");
  import_pymatgen := Raise (no_module "pymatgen")
|}.

(** Installations whose imports fail with something other than an
    [ImportError]: a library that is present but broken. *)
Definition broken (name : string) : exn :=
  mk_exn (Derived "SyntaxError" Exception) ("invalid syntax in " ++ name).

Definition ase_broken : installation := {|
  import_ase_io := Raise (broken "ase");
  import_pymatgen := Return pymatgen_module
|}.

Definition pymatgen_broken : installation := {|
  import_ase_io := Raise (no_module "ase");
  import_pymatgen := Raise (broken "pymatgen")
|}.

Definition crystal : AseStructure.t :=
  {| AseStructure.structure := Some ([true; true; true], "crystal");
     AseStructure.pbc_enabled := true |}.

Definition slab : AseStructure.t :=
  {| AseStructure.structure := Some ([true; true; false], "slab");
     AseStructure.pbc_enabled := false |}.

Definition water : AseStructure.t :=
  {| AseStructure.structure := Some ([false; false; false], "water");
     AseStructure.pbc_enabled := false |}.

Definition pym_crystal : PymatgenStructure.t :=
  {| PymatgenStructure.structure := PymatgenStructure.a_Structure "crystal";
     PymatgenStructure.pbc_enabled := true |}.

Definition pym_water : PymatgenStructure.t :=
  {| PymatgenStructure.structure := PymatgenStructure.a_Molecule "water";
     PymatgenStructure.pbc_enabled := false |}.
End Sample.

(** ** Objects of the two classes over their lifetime

    What a client can do to an object with the methods of its class:
    allocate it, run [__init__] on it (again, on any file), and call the
    accessors.  The consistency predicates say how [structure] and
    [pbc_enabled] are meant to go together. *)

Section Lifetime.
Context `{AseLibrary} `{PymatgenLibrary}.
Variable env : installation.

Inductive ase_reachable : AseStructure.t -> Prop :=
  | ase_allocated : ase_reachable AseStructure.new
  | ase_after_init (filename : string) (self : AseStructure.t) :
      ase_reachable self ->
      ase_reachable (fst (AseStructure.__init__ env filename self))
  | ase_after_get_cell_matrix (self : AseStructure.t) :
      ase_reachable self -> ase_reachable (fst (AseStructure.get_cell_matrix self))
  | ase_after_get_frac_coords (self : AseStructure.t) :
      ase_reachable self -> ase_reachable (fst (AseStructure.get_frac_coords self))
  | ase_after_get_cart_coords (self : AseStructure.t) :
      ase_reachable self -> ase_reachable (fst (AseStructure.get_cart_coords self))
  | ase_after_get_coords (self : AseStructure.t) :
      ase_reachable self ->
      ase_reachable
        (fst (AbstractStructure.get_coords (cls := AseStructure.cls env) self)).

Definition ase_consistent (self : AseStructure.t) : Prop :=
  match AseStructure.structure self with
  | Some atoms => AseStructure.pbc_enabled self = all (atoms_pbc atoms)
  | None => AseStructure.pbc_enabled self = false
  end.

Inductive pym_reachable : PymatgenStructure.t -> Prop :=
  | pym_allocated : pym_reachable PymatgenStructure.new
  | pym_after_init (filename : string) (self : PymatgenStructure.t) :
      pym_reachable self ->
      pym_reachable (fst (PymatgenStructure.__init__ env filename self))
  | pym_after_get_cell_matrix (self : PymatgenStructure.t) :
      pym_reachable self ->
      pym_reachable (fst (PymatgenStructure.get_cell_matrix self))
  | pym_after_get_frac_coords (self : PymatgenStructure.t) :
      pym_reachable self ->
      pym_reachable (fst (PymatgenStructure.get_frac_coords self))
  | pym_after_get_cart_coords (self : PymatgenStructure.t) :
      pym_reachable self ->
      pym_reachable (fst (PymatgenStructure.get_cart_coords self))
  | pym_after_get_coords (self : PymatgenStructure.t) :
      pym_reachable self ->
      pym_reachable
        (fst (AbstractStructure.get_coords (cls := PymatgenStructure.cls env) self)).

Definition pym_consistent (self : PymatgenStructure.t) : Prop :=
  match PymatgenStructure.structure self with
  | PymatgenStructure.a_Structure _ => PymatgenStructure.pbc_enabled self = true
  | PymatgenStructure.a_Molecule _ | PymatgenStructure.NoneType =>
      PymatgenStructure.pbc_enabled self = false
  end.
End Lifetime.

(** * Properties *)

Ltac py_unfold :=
  unfold py_bind, py_ret, raise, call, gets, modify, try_except, assert,
    no_attribute in *.

(** ** Running the sample installations *)

Example import_ase_only :
  import_module Sample.ase_only =
  Return {| globals := {[ "_has_reader" := true; "_has_ase" := true ]};
            warnings := [] |}.
Proof. vm_compute. reflexivity. Qed.

Example import_pymatgen_only :
  import_module Sample.pymatgen_only =
  Return {| globals := {[ "_has_reader" := true; "_has_ase" := false;
                          "_has_pymatgen" := true ]};
            warnings := [("Unable to import ASE for reading file structure, trying other librairies",
                          "ImportWarning")] |}.
Proof. vm_compute. reflexivity. Qed.

Example factory_on_crystal :
  run_client Sample.ase_only (structure_from_file Sample.ase_only "crystal.cif")
  = Return (Some (Ase Sample.crystal)).
Proof. vm_compute. reflexivity. Qed.

(** ** Module load *)

Section ModuleLoadFacts.
Context `{AseLibrary} `{PymatgenLibrary}.
Variable env : installation.

Lemma import_module_ase (io : ase_io) :
  import_ase_io env = Return io ->
  import_module env = Return loaded_with_ase.
Proof.
  intros Hio. unfold import_module, module_body. py_unfold.
  rewrite Hio. vm_compute. reflexivity.
Qed.

Lemma import_module_pymatgen (e : exn) (pym : pymatgen) :
  import_ase_io env = Raise e ->
  isinstance e ImportError = true ->
  import_pymatgen env = Return pym ->
  import_module env = Return loaded_with_pymatgen.
Proof.
  intros Hio He Hpym. unfold import_module, module_body. py_unfold.
  rewrite Hio, He. cbn -[lookup insert empty].
  rewrite Hpym. vm_compute. reflexivity.
Qed.

Lemma import_module_neither (e1 e2 : exn) :
  import_ase_io env = Raise e1 ->
  isinstance e1 ImportError = true ->
  import_pymatgen env = Raise e2 ->
  isinstance e2 ImportError = true ->
  import_module env =
  Raise (mk_exn NotImplementedError
           "Cannot find any suitable library for reading file structures").
Proof.
  intros Hio He1 Hpym He2. unfold import_module, module_body. py_unfold.
  rewrite Hio, He1. cbn -[lookup insert empty].
  rewrite Hpym, He2. vm_compute. reflexivity.
Qed.

(** A successful load went through one of the two import branches. *)
Lemma import_module_inv (m : namespace) :
  import_module env = Return m ->
  (exists io, import_ase_io env = Return io /\ m = loaded_with_ase) \/
  (exists e pym, import_ase_io env = Raise e /\ isinstance e ImportError = true /\
     import_pymatgen env = Return pym /\ m = loaded_with_pymatgen).
Proof.
  intros Hm.
  destruct (import_ase_io env) as [io|e] eqn:Hio.
  - left. exists io. split; [reflexivity|].
    rewrite (import_module_ase io Hio) in Hm. congruence.
  - right. destruct (isinstance e ImportError) eqn:He.
    + destruct (import_pymatgen env) as [pym|e2] eqn:Hpym.
      * exists e, pym. repeat split; try assumption.
        rewrite (import_module_pymatgen e pym Hio He Hpym) in Hm. congruence.
      * exfalso. destruct (isinstance e2 ImportError) eqn:He2.
        -- rewrite (import_module_neither e e2 Hio He Hpym He2) in Hm. discriminate.
        -- revert Hm. unfold import_module, module_body. py_unfold.
           rewrite Hio, He. cbn -[lookup insert empty].
           rewrite Hpym, He2. vm_compute. discriminate.
    + exfalso. revert Hm. unfold import_module, module_body. py_unfold.
      rewrite Hio, He. vm_compute. discriminate.
Qed.
End ModuleLoadFacts.

(** ** The dispatching method *)

(** C1.  For an object of any class that implements the interface,
    [get_coords] is exactly [get_frac_coords] on that object when its
    [pbc_enabled] flag is true, and exactly [get_cart_coords] when the
    flag is false: same outcome (value or exception), same final object. *)
Theorem get_coords_dispatch
    (Self Matrix Coords : Type) (cls : AbstractStructure.t Self Matrix Coords)
    (self : Self) :
  (AbstractStructure.pbc_enabled self = true ->
   AbstractStructure.get_coords self = AbstractStructure.get_frac_coords self) /\
  (AbstractStructure.pbc_enabled self = false ->
   AbstractStructure.get_coords self = AbstractStructure.get_cart_coords self).
Proof.
  unfold AbstractStructure.get_coords. py_unfold.
  split; intros ->; reflexivity.
Qed.

Lemma get_coords_dispatch_witness :
  (AbstractStructure.pbc_enabled (t := AseStructure.cls Sample.ase_only)
     Sample.crystal = true /\
   AbstractStructure.get_coords (cls := AseStructure.cls Sample.ase_only)
     Sample.crystal = (Sample.crystal, Return "scaled positions of crystal")) /\
  (AbstractStructure.pbc_enabled (t := AseStructure.cls Sample.ase_only)
     Sample.water = false /\
   AbstractStructure.get_coords (cls := AseStructure.cls Sample.ase_only)
     Sample.water = (Sample.water, Return "positions of water")).
Proof.
  split; (split; [reflexivity|]).
  - rewrite (proj1 (get_coords_dispatch _ _ _ (AseStructure.cls Sample.ase_only)
                      Sample.crystal)); reflexivity.
  - rewrite (proj2 (get_coords_dispatch _ _ _ (AseStructure.cls Sample.ase_only)
                      Sample.water)); reflexivity.
Defined.

(** ** No library, no module *)

(** C3.  When both imports fail with an [ImportError], the module body
    raises [NotImplementedError]: the import yields no module, and every
    client of the module (the factory or a class constructor) gets that
    exception instead of running. *)
Theorem no_reader_no_module `{AseLibrary} `{PymatgenLibrary}
    (env : installation) (e1 e2 : exn) :
  import_ase_io env = Raise e1 ->
  isinstance e1 ImportError = true ->
  import_pymatgen env = Raise e2 ->
  isinstance e2 ImportError = true ->
  let error := mk_exn NotImplementedError
                 "Cannot find any suitable library for reading file structures" in
  import_module env = Raise error /\
  (forall m, import_module env <> Return m) /\
  (forall (A : Type) (program : py namespace A), run_client env program = Raise error).
Proof.
  intros Hio He1 Hpym He2 error.
  pose proof (import_module_neither env e1 e2 Hio He1 Hpym He2) as Hload.
  fold error in Hload.
  split; [assumption|]. split.
  - intros m Hm. rewrite Hload in Hm. discriminate.
  - intros A program. unfold run_client. rewrite Hload. reflexivity.
Qed.

Lemma no_reader_no_module_witness :
  import_module Sample.nothing_installed =
    Raise (mk_exn NotImplementedError
             "Cannot find any suitable library for reading file structures") /\
  run_client Sample.nothing_installed
    (structure_from_file Sample.nothing_installed "crystal.cif") =
    Raise (mk_exn NotImplementedError
             "Cannot find any suitable library for reading file structures").
Proof.
  destruct (no_reader_no_module Sample.nothing_installed
              (Sample.no_module "ase") (Sample.no_module "pymatgen")
              eq_refl eq_refl eq_refl eq_refl) as (Hload & _ & Hclient).
  split; [exact Hload | apply Hclient].
Defined.

(** ** The ASE adapter *)

Section AseFacts.
Context `{AseLibrary} `{PymatgenLibrary}.
Variable env : installation.

(** What [__init__] does to the object it is run on, by cases on the
    import and on the reader. *)
Lemma ase_init_import_fails (filename : string) (self : AseStructure.t) (e : exn) :
  import_ase_io env = Raise e ->
  AseStructure.__init__ env filename self = (self, Raise e).
Proof.
  intros Hio. unfold AseStructure.__init__. py_unfold. rewrite Hio. reflexivity.
Qed.

Lemma ase_init_read_fails (filename : string) (self : AseStructure.t)
    (io : ase_io) (e : exn) :
  import_ase_io env = Return io ->
  read io filename = Raise e ->
  AseStructure.__init__ env filename self = (self, Raise e).
Proof.
  intros Hio Hread. unfold AseStructure.__init__. py_unfold.
  rewrite Hio, Hread. reflexivity.
Qed.

Lemma ase_init_read_ok (filename : string) (self : AseStructure.t)
    (io : ase_io) (atoms : Atoms) :
  import_ase_io env = Return io ->
  read io filename = Return atoms ->
  AseStructure.__init__ env filename self =
  ({| AseStructure.structure := Some atoms;
      AseStructure.pbc_enabled := all (atoms_pbc atoms) |}, Return None).
Proof.
  intros Hio Hread.
  unfold AseStructure.__init__, AseStructure.structure_attr,
    AseStructure.set_structure, AseStructure.set_pbc_enabled.
  py_unfold. rewrite Hio, Hread. reflexivity.
Qed.

(** An object on which [__init__] ran to its end holds the atoms the
    reader returned, and its flag is [all] of their [pbc]. *)
Lemma ase_initialised_inv (filename : string) (self : AseStructure.t) :
  AseStructure.initialised env filename self ->
  exists io atoms,
    import_ase_io env = Return io /\ read io filename = Return atoms /\
    self = {| AseStructure.structure := Some atoms;
              AseStructure.pbc_enabled := all (atoms_pbc atoms) |}.
Proof.
  intros [r Hinit].
  destruct (import_ase_io env) as [io|e] eqn:Hio.
  - destruct (read io filename) as [atoms|e] eqn:Hread.
    + rewrite (ase_init_read_ok filename _ io atoms Hio Hread) in Hinit.
      exists io, atoms. repeat split; congruence.
    + rewrite (ase_init_read_fails filename _ io e Hio Hread) in Hinit. discriminate.
  - rewrite (ase_init_import_fails filename _ e Hio) in Hinit. discriminate.
Qed.

Lemma ase_from_file_ok (filename : string) (io : ase_io) (atoms : Atoms) :
  import_ase_io env = Return io ->
  read io filename = Return atoms ->
  AbstractStructure.from_file (AseStructure.cls env) filename =
  Return {| AseStructure.structure := Some atoms;
            AseStructure.pbc_enabled := all (atoms_pbc atoms) |}.
Proof.
  intros Hio Hread. unfold AbstractStructure.from_file, type_call,
    AbstractStructure.__init__, AbstractStructure.new, AseStructure.cls.
  rewrite (ase_init_read_ok filename _ io atoms Hio Hread). reflexivity.
Qed.

Lemma ase_from_file_read_fails (filename : string) (io : ase_io) (e : exn) :
  import_ase_io env = Return io ->
  read io filename = Raise e ->
  AbstractStructure.from_file (AseStructure.cls env) filename = Raise e.
Proof.
  intros Hio Hread. unfold AbstractStructure.from_file, type_call,
    AbstractStructure.__init__, AbstractStructure.new, AseStructure.cls.
  rewrite (ase_init_read_fails filename _ io e Hio Hread). reflexivity.
Qed.

(** The accessors only read [self]. *)
Lemma ase_get_cell_matrix_frame (self : AseStructure.t) :
  fst (AseStructure.get_cell_matrix self) = self.
Proof.
  unfold AseStructure.get_cell_matrix, AseStructure.structure_attr. py_unfold.
  destruct self as [[atoms|] []]; reflexivity.
Qed.

Lemma ase_get_frac_coords_frame (self : AseStructure.t) :
  fst (AseStructure.get_frac_coords self) = self.
Proof.
  unfold AseStructure.get_frac_coords, AseStructure.structure_attr. py_unfold.
  destruct self as [[atoms|] []]; reflexivity.
Qed.

Lemma ase_get_cart_coords_frame (self : AseStructure.t) :
  fst (AseStructure.get_cart_coords self) = self.
Proof.
  unfold AseStructure.get_cart_coords, AseStructure.structure_attr. py_unfold.
  destruct self as [[atoms|] []]; reflexivity.
Qed.

Lemma ase_get_frac_coords_disabled (self : AseStructure.t) :
  AseStructure.pbc_enabled self = false ->
  AseStructure.get_frac_coords self = (self, Raise (mk_exn AssertionError "")).
Proof.
  intros Hpbc. unfold AseStructure.get_frac_coords. py_unfold.
  rewrite Hpbc. reflexivity.
Qed.

Lemma ase_get_cell_matrix_disabled (self : AseStructure.t) :
  AseStructure.pbc_enabled self = false ->
  AseStructure.get_cell_matrix self = (self, Return None).
Proof.
  intros Hpbc. unfold AseStructure.get_cell_matrix. py_unfold.
  rewrite Hpbc. reflexivity.
Qed.
End AseFacts.

(** ** The pymatgen adapter *)

Section PymatgenFacts.
Context `{AseLibrary} `{PymatgenLibrary}.
Variable env : installation.

Ltac unfold_init :=
  unfold PymatgenStructure.__init__, PymatgenStructure.set_structure,
    PymatgenStructure.set_pbc_enabled; py_unfold.

Lemma pym_init_import_fails (filename : string) (self : PymatgenStructure.t) (e : exn) :
  import_pymatgen env = Raise e ->
  PymatgenStructure.__init__ env filename self = (self, Raise e).
Proof. intros Himp. unfold_init. rewrite Himp. reflexivity. Qed.

(** Read as a periodic structure. *)
Lemma pym_init_structure (filename : string) (self : PymatgenStructure.t)
    (pym : pymatgen) (s : Structure) :
  import_pymatgen env = Return pym ->
  Structure_from_file pym filename = Return s ->
  let self' := {| PymatgenStructure.structure := PymatgenStructure.a_Structure s;
                  PymatgenStructure.pbc_enabled := true |} in
  PymatgenStructure.__init__ env filename self = (self', Return (Some self')).
Proof. intros Himp Hs. unfold_init. rewrite Himp, Hs. reflexivity. Qed.

(** [Structure.from_file] raised a [ValueError]: read as a molecule. *)
Lemma pym_init_molecule (filename : string) (self : PymatgenStructure.t)
    (pym : pymatgen) (e : exn) (m : Molecule) :
  import_pymatgen env = Return pym ->
  Structure_from_file pym filename = Raise e ->
  isinstance e ValueError = true ->
  Molecule_from_file pym filename = Return m ->
  let self' := {| PymatgenStructure.structure := PymatgenStructure.a_Molecule m;
                  PymatgenStructure.pbc_enabled := false |} in
  PymatgenStructure.__init__ env filename self = (self', Return (Some self')).
Proof.
  intros Himp Hs He Hm. unfold_init. rewrite Himp, Hs, He, Hm. reflexivity.
Qed.

(** The fallback reader raised as well: its exception is the one raised. *)
Lemma pym_init_molecule_fails (filename : string) (self : PymatgenStructure.t)
    (pym : pymatgen) (e e' : exn) :
  import_pymatgen env = Return pym ->
  Structure_from_file pym filename = Raise e ->
  isinstance e ValueError = true ->
  Molecule_from_file pym filename = Raise e' ->
  PymatgenStructure.__init__ env filename self = (self, Raise e').
Proof.
  intros Himp Hs He Hm. unfold_init. rewrite Himp, Hs, He, Hm. reflexivity.
Qed.

(** Any other exception of [Structure.from_file] leaves the [try]. *)
Lemma pym_init_escapes (filename : string) (self : PymatgenStructure.t)
    (pym : pymatgen) (e : exn) :
  import_pymatgen env = Return pym ->
  Structure_from_file pym filename = Raise e ->
  isinstance e ValueError = false ->
  PymatgenStructure.__init__ env filename self = (self, Raise e).
Proof.
  intros Himp Hs He. unfold_init. rewrite Himp, Hs, He. reflexivity.
Qed.

(** [__init__] never returns [None]. *)
Lemma pym_init_returns_self (filename : string) (self self' : PymatgenStructure.t)
    (r : option PymatgenStructure.t) :
  PymatgenStructure.__init__ env filename self = (self', Return r) ->
  r = Some self'.
Proof.
  unfold_init.
  destruct (import_pymatgen env) as [pym|e]; [|discriminate].
  destruct (Structure_from_file pym filename) as [s|e]; [intros [= <- <-]; reflexivity|].
  destruct (isinstance e ValueError); [|discriminate].
  destruct (Molecule_from_file pym filename) as [m|e']; [|discriminate].
  intros [= <- <-]. reflexivity.
Qed.

(** An object on which [__init__] ran to its end is in one of two
    shapes, according to which reader produced its structure. *)
Lemma pym_initialised_inv (filename : string) (self : PymatgenStructure.t) :
  PymatgenStructure.initialised env filename self ->
  exists pym, import_pymatgen env = Return pym /\
    ((exists s, Structure_from_file pym filename = Return s /\
        self = {| PymatgenStructure.structure := PymatgenStructure.a_Structure s;
                  PymatgenStructure.pbc_enabled := true |}) \/
     (exists e m, Structure_from_file pym filename = Raise e /\
        isinstance e ValueError = true /\
        Molecule_from_file pym filename = Return m /\
        self = {| PymatgenStructure.structure := PymatgenStructure.a_Molecule m;
                  PymatgenStructure.pbc_enabled := false |})).
Proof.
  intros [r Hinit].
  destruct (import_pymatgen env) as [pym|e] eqn:Himp.
  2:{ rewrite (pym_init_import_fails filename _ e Himp) in Hinit. discriminate. }
  exists pym. split; [reflexivity|].
  destruct (Structure_from_file pym filename) as [s|e] eqn:Hs.
  { left. exists s. split; [reflexivity|].
    rewrite (pym_init_structure filename _ pym s Himp Hs) in Hinit. congruence. }
  destruct (isinstance e ValueError) eqn:He.
  2:{ rewrite (pym_init_escapes filename _ pym e Himp Hs He) in Hinit. discriminate. }
  destruct (Molecule_from_file pym filename) as [m|e'] eqn:Hm.
  2:{ rewrite (pym_init_molecule_fails filename _ pym e e' Himp Hs He Hm) in Hinit.
      discriminate. }
  right. exists e, m. repeat split; try assumption.
  rewrite (pym_init_molecule filename _ pym e m Himp Hs He Hm) in Hinit. congruence.
Qed.

(** The constructor call [PymatgenStructure(filename)] never yields an
    object: either [__init__] raised, or it returned [self] and
    [type.__call__] raises [TypeError]. *)
Lemma pym_from_file_never_returns (filename : string) (self : PymatgenStructure.t) :
  AbstractStructure.from_file (PymatgenStructure.cls env) filename <> Return self.
Proof.
  unfold AbstractStructure.from_file, type_call,
    AbstractStructure.__init__, AbstractStructure.new, PymatgenStructure.cls.
  destruct (PymatgenStructure.__init__ env filename PymatgenStructure.new)
    as [self' [r|e]] eqn:Hinit; [|discriminate].
  rewrite (pym_init_returns_self _ _ _ _ Hinit). discriminate.
Qed.

Lemma pym_from_file_raises (filename : string) (e : exn) :
  snd (PymatgenStructure.__init__ env filename PymatgenStructure.new) = Raise e ->
  AbstractStructure.from_file (PymatgenStructure.cls env) filename = Raise e.
Proof.
  unfold AbstractStructure.from_file, type_call,
    AbstractStructure.__init__, AbstractStructure.new, PymatgenStructure.cls.
  destruct (PymatgenStructure.__init__ env filename PymatgenStructure.new)
    as [self' [r|e']]; cbn; congruence.
Qed.

Lemma pym_from_file_type_error (filename : string) (self : PymatgenStructure.t)
    (r : option PymatgenStructure.t) :
  PymatgenStructure.__init__ env filename PymatgenStructure.new = (self, Return r) ->
  AbstractStructure.from_file (PymatgenStructure.cls env) filename =
  Raise (mk_exn TypeError "__init__() should return None").
Proof.
  intros Hinit.
  unfold AbstractStructure.from_file, type_call,
    AbstractStructure.__init__, AbstractStructure.new, PymatgenStructure.cls.
  rewrite Hinit, (pym_init_returns_self _ _ _ _ Hinit). reflexivity.
Qed.

(** The accessors only read [self]. *)
Lemma pym_get_cell_matrix_frame (self : PymatgenStructure.t) :
  fst (PymatgenStructure.get_cell_matrix self) = self.
Proof.
  unfold PymatgenStructure.get_cell_matrix. py_unfold.
  destruct self as [[|s|m] []]; reflexivity.
Qed.

Lemma pym_get_frac_coords_frame (self : PymatgenStructure.t) :
  fst (PymatgenStructure.get_frac_coords self) = self.
Proof.
  unfold PymatgenStructure.get_frac_coords. py_unfold.
  destruct self as [[|s|m] []]; reflexivity.
Qed.

Lemma pym_get_cart_coords_frame (self : PymatgenStructure.t) :
  fst (PymatgenStructure.get_cart_coords self) = self.
Proof.
  unfold PymatgenStructure.get_cart_coords. py_unfold.
  destruct self as [[|s|m] []]; reflexivity.
Qed.

Lemma pym_get_frac_coords_disabled (self : PymatgenStructure.t) :
  PymatgenStructure.pbc_enabled self = false ->
  PymatgenStructure.get_frac_coords self = (self, Raise (mk_exn AssertionError "")).
Proof.
  intros Hpbc. unfold PymatgenStructure.get_frac_coords. py_unfold.
  rewrite Hpbc. reflexivity.
Qed.

Lemma pym_get_cell_matrix_disabled (self : PymatgenStructure.t) :
  PymatgenStructure.pbc_enabled self = false ->
  PymatgenStructure.get_cell_matrix self = (self, Return None).
Proof.
  intros Hpbc. unfold PymatgenStructure.get_cell_matrix. py_unfold.
  rewrite Hpbc. reflexivity.
Qed.
End PymatgenFacts.

(** Whatever the class, [get_coords] changes [self] only if the accessor
    it dispatches to does. *)
Lemma get_coords_frame (Self Matrix Coords : Type)
    (cls : AbstractStructure.t Self Matrix Coords) (self : Self) :
  fst (AbstractStructure.get_frac_coords self) = self ->
  fst (AbstractStructure.get_cart_coords self) = self ->
  fst (AbstractStructure.get_coords self) = self.
Proof.
  intros Hfrac Hcart. unfold AbstractStructure.get_coords. py_unfold.
  destruct (AbstractStructure.pbc_enabled self); assumption.
Qed.

(** ** Fractional coordinates *)

(** C4.  In both adapters [get_frac_coords] on an object whose
    [pbc_enabled] is false raises [AssertionError], whatever the object
    holds.  On an object initialised by [__init__] whose flag is true the
    assertion passes and the outcome is the library's: the result of
    [get_scaled_positions()] on the atoms (ASE), the [frac_coords] of the
    structure (pymatgen).  The object is left as it was. *)
Theorem frac_coords_need_pbc `{AseLibrary} `{PymatgenLibrary} (env : installation) :
  (forall self : AseStructure.t,
     AseStructure.pbc_enabled self = false ->
     AseStructure.get_frac_coords self = (self, Raise (mk_exn AssertionError ""))) /\
  (forall (filename : string) (self : AseStructure.t),
     AseStructure.initialised env filename self ->
     AseStructure.pbc_enabled self = true ->
     exists atoms, AseStructure.structure self = Some atoms /\
       AseStructure.get_frac_coords self = (self, get_scaled_positions atoms)) /\
  (forall self : PymatgenStructure.t,
     PymatgenStructure.pbc_enabled self = false ->
     PymatgenStructure.get_frac_coords self = (self, Raise (mk_exn AssertionError ""))) /\
  (forall (filename : string) (self : PymatgenStructure.t),
     PymatgenStructure.initialised env filename self ->
     PymatgenStructure.pbc_enabled self = true ->
     exists s, PymatgenStructure.structure self = PymatgenStructure.a_Structure s /\
       PymatgenStructure.get_frac_coords self = (self, Return (structure_frac_coords s))).
Proof.
  split; [exact ase_get_frac_coords_disabled|].
  split.
  { intros filename self Hinit Hpbc.
    destruct (ase_initialised_inv env filename self Hinit) as (io & atoms & _ & _ & ->).
    exists atoms. split; [reflexivity|].
    cbn in Hpbc. unfold AseStructure.get_frac_coords, AseStructure.structure_attr.
    py_unfold. cbn. rewrite Hpbc. reflexivity. }
  split; [exact pym_get_frac_coords_disabled|].
  intros filename self Hinit Hpbc.
  destruct (pym_initialised_inv env filename self Hinit)
    as (pym & _ & [(s & _ & ->) | (e & m & _ & _ & _ & ->)]).
  - exists s. split; reflexivity.
  - discriminate.
Qed.

Lemma frac_coords_need_pbc_witness :
  AseStructure.get_frac_coords Sample.water =
    (Sample.water, Raise (mk_exn AssertionError "")) /\
  (exists atoms, AseStructure.structure Sample.crystal = Some atoms /\
     AseStructure.get_frac_coords Sample.crystal =
       (Sample.crystal, get_scaled_positions atoms)) /\
  PymatgenStructure.get_frac_coords Sample.pym_water =
    (Sample.pym_water, Raise (mk_exn AssertionError "")) /\
  (exists s, PymatgenStructure.structure Sample.pym_crystal =
               PymatgenStructure.a_Structure s /\
     PymatgenStructure.get_frac_coords Sample.pym_crystal =
       (Sample.pym_crystal, Return (structure_frac_coords s))).
Proof.
  destruct (frac_coords_need_pbc Sample.both_installed) as (A0 & A1 & P0 & P1).
  split; [apply A0; reflexivity|].
  split; [apply (A1 "crystal.cif"); [exists None|]; reflexivity|].
  split; [apply P0; reflexivity|].
  apply (P1 "crystal.cif"); [exists (Some Sample.pym_crystal)|]; reflexivity.
Defined.

(** ** Reader errors *)

(** C5, as stated, fails on the pymatgen adapter: [Structure.from_file]
    raises a [ValueError] on ["notes.txt"], and constructing the adapter
    for that file does not raise that exception; the caller sees the
    exception of the second reader, [Molecule.from_file]. *)
Lemma reader_error_not_always_propagated :
  Structure_from_file Sample.pymatgen_module "notes.txt" =
    Raise (mk_exn ValueError "Unrecognized file extension") /\
  AbstractStructure.from_file (PymatgenStructure.cls Sample.pymatgen_only) "notes.txt" =
    Raise (mk_exn (Derived "ParseError" Exception) "Cannot determine file type") /\
  AbstractStructure.from_file (PymatgenStructure.cls Sample.pymatgen_only) "notes.txt" <>
    Raise (mk_exn ValueError "Unrecognized file extension").
Proof. repeat split. discriminate. Qed.

(** C5, amended.  An exception of [ase.io.read] reaches the caller of
    [AseStructure(filename)] unchanged.  An exception of pymatgen's
    [Structure.from_file] that is not a [ValueError] reaches the caller of
    [PymatgenStructure(filename)] unchanged; a [ValueError] is caught, the
    file is read again with [Molecule.from_file], and an exception of that
    second reader reaches the caller unchanged. *)
Theorem reader_errors_propagate `{AseLibrary} `{PymatgenLibrary}
    (env : installation) (filename : string) (e : exn) :
  (forall io : ase_io,
     import_ase_io env = Return io ->
     read io filename = Raise e ->
     AbstractStructure.from_file (AseStructure.cls env) filename = Raise e) /\
  (forall pym : pymatgen,
     import_pymatgen env = Return pym ->
     Structure_from_file pym filename = Raise e ->
     isinstance e ValueError = false ->
     AbstractStructure.from_file (PymatgenStructure.cls env) filename = Raise e) /\
  (forall (pym : pymatgen) (caught : exn),
     import_pymatgen env = Return pym ->
     Structure_from_file pym filename = Raise caught ->
     isinstance caught ValueError = true ->
     Molecule_from_file pym filename = Raise e ->
     AbstractStructure.from_file (PymatgenStructure.cls env) filename = Raise e).
Proof.
  split; [|split].
  - intros io Hio Hread. exact (ase_from_file_read_fails env filename io e Hio Hread).
  - intros pym Himp Hs He. apply pym_from_file_raises.
    rewrite (pym_init_escapes env filename _ pym e Himp Hs He). reflexivity.
  - intros pym caught Himp Hs He Hm. apply pym_from_file_raises.
    rewrite (pym_init_molecule_fails env filename _ pym caught e Himp Hs He Hm).
    reflexivity.
Qed.

Lemma reader_errors_propagate_witness :
  AbstractStructure.from_file (AseStructure.cls Sample.both_installed) "missing.cif" =
    Raise (Sample.no_file "missing.cif") /\
  AbstractStructure.from_file (PymatgenStructure.cls Sample.both_installed) "missing.cif" =
    Raise (Sample.no_file "missing.cif") /\
  AbstractStructure.from_file (PymatgenStructure.cls Sample.both_installed) "notes.txt" =
    Raise (mk_exn (Derived "ParseError" Exception) "Cannot determine file type").
Proof.
  split; [|split].
  - apply (proj1 (reader_errors_propagate Sample.both_installed "missing.cif"
                    (Sample.no_file "missing.cif")) Sample.ase_module);
      reflexivity.
  - apply (proj1 (proj2 (reader_errors_propagate Sample.both_installed "missing.cif"
                           (Sample.no_file "missing.cif"))) Sample.pymatgen_module);
      reflexivity.
  - apply (proj2 (proj2 (reader_errors_propagate Sample.both_installed "notes.txt"
                           (mk_exn (Derived "ParseError" Exception)
                              "Cannot determine file type")))
             Sample.pymatgen_module
             (mk_exn ValueError "Unrecognized file extension"));
      reflexivity.
Defined.

(** ** Constructing the pymatgen adapter *)

(** C6 does not hold of the code.  On a file pymatgen reads as a periodic
    structure, [__init__] stores the parsed structure in [self] and then
    returns [self]; the constructor call rejects the non-[None] return
    value, so [from_file] raises [TypeError] and returns no instance. *)
Theorem pymatgen_from_file_raises_TypeError :
  Structure_from_file Sample.pymatgen_module "crystal.cif" = Return "crystal" /\
  PymatgenStructure.__init__ Sample.pymatgen_only "crystal.cif" PymatgenStructure.new =
    (Sample.pym_crystal, Return (Some Sample.pym_crystal)) /\
  AbstractStructure.from_file (PymatgenStructure.cls Sample.pymatgen_only) "crystal.cif" =
    Raise (mk_exn TypeError "__init__() should return None").
Proof. repeat split. Qed.

(** The same on a file read as a molecule, and through the factory. *)
Example pymatgen_from_file_raises_on_molecule :
  AbstractStructure.from_file (PymatgenStructure.cls Sample.pymatgen_only) "water.xyz" =
    Raise (mk_exn TypeError "__init__() should return None") /\
  run_client Sample.pymatgen_only
    (structure_from_file Sample.pymatgen_only "crystal.cif") =
    Raise (mk_exn TypeError "__init__() should return None").
Proof. split; vm_compute; reflexivity. Qed.

(** ** The periodicity flag *)

Lemma all_true_iff (flags : list bool) :
  all flags = true <-> Forall (fun flag => flag = true) flags.
Proof.
  unfold all. induction flags as [|flag flags IH]; cbn.
  - split; [constructor | reflexivity].
  - rewrite andb_true_iff, IH, Forall_cons. reflexivity.
Qed.

(** C7.  [__init__] sets the flag from what the reader gives.  When
    [ase.io.read] returns atoms, [AseStructure.__init__] reaches its end
    with those atoms stored and the flag true exactly when every entry of
    their [pbc] is true, and the constructor call returns that object.
    When [Structure.from_file] returns a periodic structure,
    [PymatgenStructure.__init__] reaches its end with it stored and the
    flag true; when it raises a [ValueError] and [Molecule.from_file]
    returns a molecule, with the molecule stored and the flag false.
    Conversely, on any object that [__init__] ran to its end on, the flag
    of an [AseStructure] is true exactly when every [pbc] entry of the
    atoms read is true, and the flag of a [PymatgenStructure] is true
    exactly when [Structure.from_file] returned (and then [structure] holds
    that periodic structure); otherwise it is false and [structure] holds
    the [Molecule] that the second reader returned.  None of the four
    accessors of either class changes the flag. *)
Theorem pbc_enabled_meaning `{AseLibrary} `{PymatgenLibrary} (env : installation) :
  (forall (filename : string) (self : AseStructure.t) (io : ase_io) (atoms : Atoms),
     import_ase_io env = Return io ->
     read io filename = Return atoms ->
     let self' := {| AseStructure.structure := Some atoms;
                     AseStructure.pbc_enabled := all (atoms_pbc atoms) |} in
     AseStructure.__init__ env filename self = (self', Return None) /\
     AbstractStructure.from_file (AseStructure.cls env) filename = Return self' /\
     AseStructure.initialised env filename self' /\
     (AseStructure.pbc_enabled self' = true <->
      Forall (fun flag => flag = true) (atoms_pbc atoms))) /\
  (forall (filename : string) (self : PymatgenStructure.t) (pym : pymatgen),
     import_pymatgen env = Return pym ->
     (forall s : Structure,
        Structure_from_file pym filename = Return s ->
        let self' := {| PymatgenStructure.structure := PymatgenStructure.a_Structure s;
                        PymatgenStructure.pbc_enabled := true |} in
        PymatgenStructure.__init__ env filename self = (self', Return (Some self')) /\
        PymatgenStructure.initialised env filename self') /\
     (forall (e : exn) (m : Molecule),
        Structure_from_file pym filename = Raise e ->
        isinstance e ValueError = true ->
        Molecule_from_file pym filename = Return m ->
        let self' := {| PymatgenStructure.structure := PymatgenStructure.a_Molecule m;
                        PymatgenStructure.pbc_enabled := false |} in
        PymatgenStructure.__init__ env filename self = (self', Return (Some self')) /\
        PymatgenStructure.initialised env filename self')) /\
  (forall (filename : string) (self : AseStructure.t),
     AseStructure.initialised env filename self ->
     exists io atoms,
       import_ase_io env = Return io /\ read io filename = Return atoms /\
       AseStructure.structure self = Some atoms /\
       (AseStructure.pbc_enabled self = true <->
        Forall (fun flag => flag = true) (atoms_pbc atoms))) /\
  (forall (filename : string) (self : PymatgenStructure.t),
     PymatgenStructure.initialised env filename self ->
     exists pym,
       import_pymatgen env = Return pym /\
       (PymatgenStructure.pbc_enabled self = true <->
        exists s, Structure_from_file pym filename = Return s) /\
       (PymatgenStructure.pbc_enabled self = true ->
        exists s, Structure_from_file pym filename = Return s /\
          PymatgenStructure.structure self = PymatgenStructure.a_Structure s) /\
       (PymatgenStructure.pbc_enabled self = false ->
        exists m, Molecule_from_file pym filename = Return m /\
          PymatgenStructure.structure self = PymatgenStructure.a_Molecule m)) /\
  (forall self : AseStructure.t,
     AseStructure.pbc_enabled (fst (AseStructure.get_cell_matrix self)) =
       AseStructure.pbc_enabled self /\
     AseStructure.pbc_enabled (fst (AseStructure.get_frac_coords self)) =
       AseStructure.pbc_enabled self /\
     AseStructure.pbc_enabled (fst (AseStructure.get_cart_coords self)) =
       AseStructure.pbc_enabled self /\
     AseStructure.pbc_enabled
       (fst (AbstractStructure.get_coords (cls := AseStructure.cls env) self)) =
       AseStructure.pbc_enabled self) /\
  (forall self : PymatgenStructure.t,
     PymatgenStructure.pbc_enabled (fst (PymatgenStructure.get_cell_matrix self)) =
       PymatgenStructure.pbc_enabled self /\
     PymatgenStructure.pbc_enabled (fst (PymatgenStructure.get_frac_coords self)) =
       PymatgenStructure.pbc_enabled self /\
     PymatgenStructure.pbc_enabled (fst (PymatgenStructure.get_cart_coords self)) =
       PymatgenStructure.pbc_enabled self /\
     PymatgenStructure.pbc_enabled
       (fst (AbstractStructure.get_coords (cls := PymatgenStructure.cls env) self)) =
       PymatgenStructure.pbc_enabled self).
Proof.
  split; [|split; [|split; [|split; [|split]]]].
  - intros filename self io atoms Hio Hread self'.
    split; [exact (ase_init_read_ok env filename self io atoms Hio Hread)|].
    split; [exact (ase_from_file_ok env filename io atoms Hio Hread)|].
    split.
    + exists None. exact (ase_init_read_ok env filename _ io atoms Hio Hread).
    + apply all_true_iff.
  - intros filename self pym Himp. split.
    + intros s Hs self'.
      split; [exact (pym_init_structure env filename self pym s Himp Hs)|].
      exists (Some self'). exact (pym_init_structure env filename _ pym s Himp Hs).
    + intros e m Hs He Hm self'.
      split; [exact (pym_init_molecule env filename self pym e m Himp Hs He Hm)|].
      exists (Some self').
      exact (pym_init_molecule env filename _ pym e m Himp Hs He Hm).
  - intros filename self Hinit.
    destruct (ase_initialised_inv env filename self Hinit)
      as (io & atoms & Hio & Hread & ->).
    exists io, atoms. split; [assumption|]. split; [assumption|].
    split; [reflexivity|]. apply all_true_iff.
  - intros filename self Hinit.
    destruct (pym_initialised_inv env filename self Hinit)
      as (pym & Himp & [(s & Hs & ->) | (e & m & Hs & He & Hm & ->)]);
      exists pym; (split; [assumption|]); cbn.
    + repeat split; try discriminate; intros; exists s; auto.
    + repeat split; try discriminate.
      * intros [s Hs']. congruence.
      * intros _. exists m. auto.
  - intros self.
    rewrite ase_get_cell_matrix_frame, ase_get_frac_coords_frame,
      ase_get_cart_coords_frame.
    rewrite (get_coords_frame _ _ _ (AseStructure.cls env) self
               (ase_get_frac_coords_frame self) (ase_get_cart_coords_frame self)).
    repeat split.
  - intros self.
    rewrite pym_get_cell_matrix_frame, pym_get_frac_coords_frame,
      pym_get_cart_coords_frame.
    rewrite (get_coords_frame _ _ _ (PymatgenStructure.cls env) self
               (pym_get_frac_coords_frame self) (pym_get_cart_coords_frame self)).
    repeat split.
Qed.

Lemma pbc_enabled_meaning_witness :
  (AseStructure.__init__ Sample.both_installed "slab.traj" AseStructure.new =
     (Sample.slab, Return None) /\
   AbstractStructure.from_file (AseStructure.cls Sample.both_installed) "slab.traj" =
     Return Sample.slab /\
   AseStructure.__init__ Sample.both_installed "crystal.cif" Sample.slab =
     (Sample.crystal, Return None)) /\
  (PymatgenStructure.__init__ Sample.both_installed "crystal.cif"
     PymatgenStructure.new = (Sample.pym_crystal, Return (Some Sample.pym_crystal)) /\
   PymatgenStructure.__init__ Sample.both_installed "water.xyz"
     PymatgenStructure.new = (Sample.pym_water, Return (Some Sample.pym_water))) /\
  (exists atoms, read Sample.ase_module "slab.traj" = Return atoms /\
     atoms_pbc atoms = [true; true; false] /\
     (AseStructure.pbc_enabled Sample.slab = true <->
      Forall (fun flag => flag = true) (atoms_pbc atoms))) /\
  (exists s, Structure_from_file Sample.pymatgen_module "crystal.cif" = Return s /\
     PymatgenStructure.structure Sample.pym_crystal = PymatgenStructure.a_Structure s) /\
  (exists m, Molecule_from_file Sample.pymatgen_module "water.xyz" = Return m /\
     PymatgenStructure.structure Sample.pym_water = PymatgenStructure.a_Molecule m).
Proof.
  destruct (pbc_enabled_meaning Sample.both_installed)
    as (Hsets_ase & Hsets_pym & Hase & Hpym & _ & _).
  split; [|split; [|split; [|split]]].
  - destruct (Hsets_ase "slab.traj" AseStructure.new Sample.ase_module
                ([true; true; false], "slab") eq_refl eq_refl)
      as (Hinit & Hfile & _ & _).
    destruct (Hsets_ase "crystal.cif" Sample.slab Sample.ase_module
                ([true; true; true], "crystal") eq_refl eq_refl)
      as (Hagain & _).
    split; [exact Hinit|]. split; [exact Hfile | exact Hagain].
  - destruct (Hsets_pym "crystal.cif" PymatgenStructure.new Sample.pymatgen_module
                eq_refl) as (Hstructure & _).
    destruct (Hsets_pym "water.xyz" PymatgenStructure.new Sample.pymatgen_module
                eq_refl) as (_ & Hmolecule).
    split.
    + apply (Hstructure "crystal" eq_refl).
    + apply (Hmolecule (mk_exn ValueError "Invalid format") "water"
               eq_refl eq_refl eq_refl).
  - destruct (Hase "slab.traj" Sample.slab)
      as (io & atoms & Hio & Hread & Hstructure & Hflag).
    { exists None. reflexivity. }
    exists atoms. injection Hio as <-. injection Hstructure as <-.
    repeat split; try reflexivity; apply Hflag.
  - destruct (Hpym "crystal.cif" Sample.pym_crystal) as (pym & Himp & _ & Htrue & _).
    { exists (Some Sample.pym_crystal). reflexivity. }
    injection Himp as <-. apply Htrue. reflexivity.
  - destruct (Hpym "water.xyz" Sample.pym_water) as (pym & Himp & _ & _ & Hfalse).
    { exists (Some Sample.pym_water). reflexivity. }
    injection Himp as <-. apply Hfalse. reflexivity.
Defined.

(** ** The cell matrix *)

(** C8.  In both adapters [get_cell_matrix] returns [None] on an object
    whose flag is false.  On an object initialised by [__init__] whose flag
    is true it returns the library's matrix: the [cell] of the atoms (ASE),
    [lattice.matrix] of the structure (pymatgen).  So on an initialised
    object it always returns, and the object is left as it was. *)
Theorem get_cell_matrix_total `{AseLibrary} `{PymatgenLibrary} (env : installation) :
  (forall self : AseStructure.t,
     AseStructure.pbc_enabled self = false ->
     AseStructure.get_cell_matrix self = (self, Return None)) /\
  (forall (filename : string) (self : AseStructure.t),
     AseStructure.initialised env filename self ->
     (AseStructure.pbc_enabled self = true ->
      exists atoms, AseStructure.structure self = Some atoms /\
        AseStructure.get_cell_matrix self = (self, Return (Some (atoms_cell atoms)))) /\
     (exists matrix, AseStructure.get_cell_matrix self = (self, Return matrix))) /\
  (forall self : PymatgenStructure.t,
     PymatgenStructure.pbc_enabled self = false ->
     PymatgenStructure.get_cell_matrix self = (self, Return None)) /\
  (forall (filename : string) (self : PymatgenStructure.t),
     PymatgenStructure.initialised env filename self ->
     (PymatgenStructure.pbc_enabled self = true ->
      exists s, PymatgenStructure.structure self = PymatgenStructure.a_Structure s /\
        PymatgenStructure.get_cell_matrix self =
          (self, Return (Some (lattice_matrix s)))) /\
     (exists matrix, PymatgenStructure.get_cell_matrix self = (self, Return matrix))).
Proof.
  split; [exact ase_get_cell_matrix_disabled|].
  split.
  { intros filename self Hinit.
    destruct (ase_initialised_inv env filename self Hinit) as (io & atoms & _ & _ & ->).
    unfold AseStructure.get_cell_matrix, AseStructure.structure_attr. py_unfold. cbn.
    split.
    - intros ->. exists atoms. split; reflexivity.
    - destruct (all (atoms_pbc atoms)); eexists; reflexivity. }
  split; [exact pym_get_cell_matrix_disabled|].
  intros filename self Hinit.
  destruct (pym_initialised_inv env filename self Hinit)
    as (pym & _ & [(s & _ & ->) | (e & m & _ & _ & _ & ->)]).
  - split; [intros _; exists s; split; reflexivity | eexists; reflexivity].
  - split; [discriminate | eexists; reflexivity].
Qed.

Lemma get_cell_matrix_total_witness :
  AseStructure.get_cell_matrix Sample.water = (Sample.water, Return None) /\
  (exists atoms, AseStructure.structure Sample.crystal = Some atoms /\
     AseStructure.get_cell_matrix Sample.crystal =
       (Sample.crystal, Return (Some (atoms_cell atoms)))) /\
  PymatgenStructure.get_cell_matrix Sample.pym_water = (Sample.pym_water, Return None) /\
  (exists s, PymatgenStructure.structure Sample.pym_crystal =
               PymatgenStructure.a_Structure s /\
     PymatgenStructure.get_cell_matrix Sample.pym_crystal =
       (Sample.pym_crystal, Return (Some (lattice_matrix s)))).
Proof.
  destruct (get_cell_matrix_total Sample.both_installed) as (A0 & A1 & P0 & P1).
  split; [apply A0; reflexivity|].
  split; [apply (A1 "crystal.cif"); [exists None|]; reflexivity|].
  split; [apply P0; reflexivity|].
  apply (P1 "crystal.cif"); [exists (Some Sample.pym_crystal)|]; reflexivity.
Defined.

(** ** The fallback to [Molecule] *)

(** C9.  When [Structure.from_file] raises an instance of [ValueError],
    [__init__] reads the same file with [Molecule.from_file]; if that
    returns a molecule, [structure] holds it and [pbc_enabled] is false,
    and if it raises, that exception is raised.  When [Structure.from_file]
    raises anything that is not an instance of [ValueError], the object is
    left untouched and the exception leaves [__init__] and the constructor
    call. *)
Theorem value_error_falls_back_to_molecule `{AseLibrary} `{PymatgenLibrary}
    (env : installation) (pym : pymatgen) (filename : string) (e : exn)
    (self : PymatgenStructure.t) :
  import_pymatgen env = Return pym ->
  Structure_from_file pym filename = Raise e ->
  (isinstance e ValueError = true ->
   match Molecule_from_file pym filename with
   | Return m =>
       let self' := {| PymatgenStructure.structure := PymatgenStructure.a_Molecule m;
                       PymatgenStructure.pbc_enabled := false |} in
       PymatgenStructure.__init__ env filename self = (self', Return (Some self'))
   | Raise e' =>
       PymatgenStructure.__init__ env filename self = (self, Raise e') /\
       AbstractStructure.from_file (PymatgenStructure.cls env) filename = Raise e'
   end) /\
  (isinstance e ValueError = false ->
   PymatgenStructure.__init__ env filename self = (self, Raise e) /\
   AbstractStructure.from_file (PymatgenStructure.cls env) filename = Raise e).
Proof.
  intros Himp Hs. split; intros He.
  - destruct (Molecule_from_file pym filename) as [m|e'] eqn:Hm.
    + exact (pym_init_molecule env filename self pym e m Himp Hs He Hm).
    + split.
      * exact (pym_init_molecule_fails env filename self pym e e' Himp Hs He Hm).
      * apply pym_from_file_raises.
        rewrite (pym_init_molecule_fails env filename _ pym e e' Himp Hs He Hm).
        reflexivity.
  - split.
    + exact (pym_init_escapes env filename self pym e Himp Hs He).
    + apply pym_from_file_raises.
      rewrite (pym_init_escapes env filename _ pym e Himp Hs He). reflexivity.
Qed.

Lemma value_error_falls_back_to_molecule_witness :
  PymatgenStructure.__init__ Sample.pymatgen_only "water.xyz" PymatgenStructure.new =
    (Sample.pym_water, Return (Some Sample.pym_water)) /\
  AbstractStructure.from_file (PymatgenStructure.cls Sample.pymatgen_only) "missing.cif" =
    Raise (Sample.no_file "missing.cif").
Proof.
  split.
  - apply (proj1 (value_error_falls_back_to_molecule Sample.pymatgen_only
                    Sample.pymatgen_module "water.xyz"
                    (mk_exn ValueError "Invalid format") PymatgenStructure.new
                    eq_refl eq_refl) eq_refl).
  - apply (proj2 (value_error_falls_back_to_molecule Sample.pymatgen_only
                    Sample.pymatgen_module "missing.cif"
                    (Sample.no_file "missing.cif") PymatgenStructure.new
                    eq_refl eq_refl) eq_refl).
Defined.

(** ** The factory *)

Section FactoryFacts.
Context `{AseLibrary} `{PymatgenLibrary}.
Variable env : installation.

Lemma has_ase_when_loaded_with_ase :
  lookup_global "_has_ase" loaded_with_ase = (loaded_with_ase, Return true).
Proof. vm_compute. reflexivity. Qed.

Lemma has_ase_when_loaded_with_pymatgen :
  lookup_global "_has_ase" loaded_with_pymatgen = (loaded_with_pymatgen, Return false).
Proof. vm_compute. reflexivity. Qed.

Lemma has_pymatgen_when_loaded_with_pymatgen :
  lookup_global "_has_pymatgen" loaded_with_pymatgen =
  (loaded_with_pymatgen, Return true).
Proof. vm_compute. reflexivity. Qed.

(** With ASE imported, the name [_has_pymatgen] was never bound; the
    factory does not read it. *)
Lemma has_pymatgen_unbound_when_loaded_with_ase :
  lookup_global "_has_pymatgen" loaded_with_ase =
  (loaded_with_ase, Raise (mk_exn NameError "_has_pymatgen")).
Proof. vm_compute. reflexivity. Qed.

Lemma structure_from_file_with_ase (filename : string) :
  structure_from_file env filename loaded_with_ase =
  (loaded_with_ase,
   result_map (fun self => Some (Ase self))
     (AbstractStructure.from_file (AseStructure.cls env) filename)).
Proof.
  unfold structure_from_file, py_bind.
  rewrite has_ase_when_loaded_with_ase. unfold call, py_ret.
  destruct (AbstractStructure.from_file (AseStructure.cls env) filename); reflexivity.
Qed.

Lemma structure_from_file_with_pymatgen (filename : string) :
  structure_from_file env filename loaded_with_pymatgen =
  (loaded_with_pymatgen,
   result_map (fun self => Some (Pymatgen self))
     (AbstractStructure.from_file (PymatgenStructure.cls env) filename)).
Proof.
  unfold structure_from_file, py_bind.
  rewrite has_ase_when_loaded_with_pymatgen, has_pymatgen_when_loaded_with_pymatgen.
  unfold call, py_ret.
  destruct (AbstractStructure.from_file (PymatgenStructure.cls env) filename);
    reflexivity.
Qed.
End FactoryFacts.

(** C2, as stated, fails: with ASE importable the factory does not return
    an [AseStructure] for a file that [ase.io.read] refuses; it raises the
    reader's exception. *)
Lemma factory_does_not_always_return :
  import_module Sample.ase_only = Return loaded_with_ase /\
  globals loaded_with_ase !! "_has_ase" = Some true /\
  structure_from_file Sample.ase_only "missing.cif" loaded_with_ase =
    (loaded_with_ase, Raise (Sample.no_file "missing.cif")) /\
  forall self : AseStructure.t,
    snd (structure_from_file Sample.ase_only "missing.cif" loaded_with_ase) <>
    Return (Some (Ase self)).
Proof.
  split; [vm_compute; reflexivity|].
  split; [vm_compute; reflexivity|].
  rewrite structure_from_file_with_ase.
  split; [reflexivity | discriminate].
Qed.

(** C2, amended.  In a loaded module the factory picks its class by what
    was importable.  When [import ase.io] succeeded, a call is the call
    [AseStructure.from_file(filename)]: it returns the [AseStructure] that
    holds the atoms when [ase.io.read] returns them, and raises the
    reader's exception when it raises.  When [import ase.io] failed (and so
    [import pymatgen] succeeded), a call is the call
    [PymatgenStructure.from_file(filename)], with that call's outcome. *)
Theorem factory_picks_by_availability `{AseLibrary} `{PymatgenLibrary}
    (env : installation) (m : namespace) (filename : string) :
  import_module env = Return m ->
  (forall io : ase_io,
     import_ase_io env = Return io ->
     structure_from_file env filename m =
       (m, result_map (fun self => Some (Ase self))
             (AbstractStructure.from_file (AseStructure.cls env) filename)) /\
     (forall atoms, read io filename = Return atoms ->
        structure_from_file env filename m =
          (m, Return (Some (Ase {| AseStructure.structure := Some atoms;
                                   AseStructure.pbc_enabled := all (atoms_pbc atoms) |})))) /\
     (forall e, read io filename = Raise e ->
        structure_from_file env filename m = (m, Raise e))) /\
  (forall e : exn,
     import_ase_io env = Raise e ->
     (exists pym, import_pymatgen env = Return pym) /\
     structure_from_file env filename m =
       (m, result_map (fun self => Some (Pymatgen self))
             (AbstractStructure.from_file (PymatgenStructure.cls env) filename))).
Proof.
  intros Hload.
  destruct (import_module_inv env m Hload)
    as [(io & Hio & ->) | (e & pym & Hio & He & Himp & ->)].
  - split; [|intros e He; congruence].
    intros io' Hio'. rewrite structure_from_file_with_ase.
    split; [reflexivity|]. split.
    + intros atoms Hread.
      rewrite (ase_from_file_ok env filename io' atoms Hio' Hread). reflexivity.
    + intros e Hread.
      rewrite (ase_from_file_read_fails env filename io' e Hio' Hread). reflexivity.
  - split; [intros io Hio'; congruence|].
    intros e' _. split; [exists pym; assumption|].
    apply structure_from_file_with_pymatgen.
Qed.

Lemma factory_picks_by_availability_witness :
  structure_from_file Sample.ase_only "crystal.cif" loaded_with_ase =
    (loaded_with_ase, Return (Some (Ase Sample.crystal))) /\
  structure_from_file Sample.pymatgen_only "crystal.cif" loaded_with_pymatgen =
    (loaded_with_pymatgen,
     result_map (fun self => Some (Pymatgen self))
       (AbstractStructure.from_file (PymatgenStructure.cls Sample.pymatgen_only)
          "crystal.cif")).
Proof.
  split.
  - apply (proj1 (proj2 (proj1 (factory_picks_by_availability Sample.ase_only
                                  loaded_with_ase "crystal.cif" eq_refl)
                           Sample.ase_module eq_refl))
             ([true; true; true], "crystal") eq_refl).
  - apply (proj2 (proj2 (factory_picks_by_availability Sample.pymatgen_only
                           loaded_with_pymatgen "crystal.cif" eq_refl)
                    (Sample.no_module "ase") eq_refl)).
Defined.

(** C10.  In a loaded module the factory takes exactly one of its two
    branches, told apart by [_has_ase]: either [_has_ase] is true and the
    call is [AseStructure.from_file(filename)], or [_has_ase] is false,
    [_has_pymatgen] is true and the call is
    [PymatgenStructure.from_file(filename)].  It never runs off its end,
    that is, it never returns [None]; and it leaves the namespace alone. *)
Theorem factory_never_falls_through `{AseLibrary} `{PymatgenLibrary}
    (env : installation) (m : namespace) (filename : string) :
  import_module env = Return m ->
  ((globals m !! "_has_ase" = Some true /\
    structure_from_file env filename m =
      (m, result_map (fun self => Some (Ase self))
            (AbstractStructure.from_file (AseStructure.cls env) filename))) \/
   (globals m !! "_has_ase" = Some false /\
    globals m !! "_has_pymatgen" = Some true /\
    structure_from_file env filename m =
      (m, result_map (fun self => Some (Pymatgen self))
            (AbstractStructure.from_file (PymatgenStructure.cls env) filename)))) /\
  snd (structure_from_file env filename m) <> Return None.
Proof.
  intros Hload.
  destruct (import_module_inv env m Hload)
    as [(io & Hio & ->) | (e & pym & Hio & He & Himp & ->)].
  - rewrite structure_from_file_with_ase. split.
    + left. split; [vm_compute|]; reflexivity.
    + cbn. destruct (AbstractStructure.from_file (AseStructure.cls env) filename);
        discriminate.
  - rewrite structure_from_file_with_pymatgen. split.
    + right. repeat split; vm_compute; reflexivity.
    + cbn. destruct (AbstractStructure.from_file (PymatgenStructure.cls env) filename);
        discriminate.
Qed.

Lemma factory_never_falls_through_witness :
  snd (structure_from_file Sample.ase_only "crystal.cif" loaded_with_ase) <> Return None /\
  snd (structure_from_file Sample.pymatgen_only "water.xyz" loaded_with_pymatgen) <>
    Return None.
Proof.
  split.
  - apply (proj2 (factory_never_falls_through Sample.ase_only loaded_with_ase
                    "crystal.cif" eq_refl)).
  - apply (proj2 (factory_never_falls_through Sample.pymatgen_only loaded_with_pymatgen
                    "water.xyz" eq_refl)).
Defined.

(** * Further properties of the module *)

(** ** Module load, case by case *)

(** X1.  ASE has priority at module load.  When [import ase.io] succeeds
    the module loads whatever the state of pymatgen: [_has_ase] and
    [_has_reader] are true, [_has_pymatgen] is never bound, no warning is
    issued, and two installations with a working ASE load the same
    namespace. *)
Theorem ase_import_takes_priority `{AseLibrary} `{PymatgenLibrary}
    (env env' : installation) (io io' : ase_io) :
  import_ase_io env = Return io ->
  import_ase_io env' = Return io' ->
  import_module env = import_module env' /\
  exists m, import_module env = Return m /\
    globals m !! "_has_ase" = Some true /\
    globals m !! "_has_reader" = Some true /\
    globals m !! "_has_pymatgen" = None /\
    warnings m = [].
Proof.
  intros Hio Hio'.
  rewrite (import_module_ase env io Hio), (import_module_ase env' io' Hio').
  split; [reflexivity|].
  exists loaded_with_ase. repeat split; vm_compute; reflexivity.
Qed.

Lemma ase_import_takes_priority_witness :
  import_module Sample.ase_only = import_module Sample.both_installed.
Proof.
  apply (proj1 (ase_import_takes_priority Sample.ase_only Sample.both_installed
                  Sample.ase_module Sample.ase_module eq_refl eq_refl)).
Defined.

(** X2.  Only [ImportError] is tolerated at module load.  An exception of
    [import ase.io] that is not an [ImportError] leaves the module body at
    once, before pymatgen is tried; and after ASE failed with an
    [ImportError], an exception of [import pymatgen] that is not an
    [ImportError] leaves it as well.  In both cases the import of the
    module raises that very exception, not [NotImplementedError]. *)
Theorem broken_library_fails_module_load `{AseLibrary} `{PymatgenLibrary}
    (env : installation) (e : exn) :
  isinstance e ImportError = false ->
  (import_ase_io env = Raise e -> import_module env = Raise e) /\
  (forall e1 : exn,
     import_ase_io env = Raise e1 ->
     isinstance e1 ImportError = true ->
     import_pymatgen env = Raise e ->
     import_module env = Raise e).
Proof.
  intros He. split.
  - intros Hio. unfold import_module, module_body. py_unfold.
    rewrite Hio, He. vm_compute. reflexivity.
  - intros e1 Hio He1 Hpym. unfold import_module, module_body. py_unfold.
    rewrite Hio, He1. cbn -[lookup insert empty].
    rewrite Hpym, He. vm_compute. reflexivity.
Qed.

Lemma broken_library_fails_module_load_witness :
  import_module Sample.ase_broken = Raise (Sample.broken "ase") /\
  import_module Sample.pymatgen_broken = Raise (Sample.broken "pymatgen").
Proof.
  split.
  - apply (proj1 (broken_library_fails_module_load Sample.ase_broken
                    (Sample.broken "ase") eq_refl) eq_refl).
  - apply (proj2 (broken_library_fails_module_load Sample.pymatgen_broken
                    (Sample.broken "pymatgen") eq_refl)
             (Sample.no_module "ase") eq_refl eq_refl eq_refl).
Defined.

(** X3.  The namespace of a loaded module.  [_has_reader] is true and
    [_has_ase] is bound.  [_has_pymatgen] is bound exactly when [_has_ase]
    is false, and then it is true.  A warning was issued exactly when ASE
    failed to import, and then it is the one about ASE, of category
    [ImportWarning]. *)
Theorem loaded_namespace_invariant `{AseLibrary} `{PymatgenLibrary}
    (env : installation) (m : namespace) :
  import_module env = Return m ->
  globals m !! "_has_reader" = Some true /\
  (exists has_ase : bool, globals m !! "_has_ase" = Some has_ase /\
     globals m !! "_has_pymatgen" = (if has_ase then None else Some true) /\
     warnings m =
       (if has_ase then []
        else [("Unable to import ASE for reading file structure, trying other librairies",
               "ImportWarning")]) /\
     (has_ase = true <-> exists io, import_ase_io env = Return io)).
Proof.
  intros Hload.
  destruct (import_module_inv env m Hload)
    as [(io & Hio & ->) | (e & pym & Hio & He & Himp & ->)].
  - split; [vm_compute; reflexivity|]. exists true.
    repeat split; try (vm_compute; reflexivity). intros _. exists io. assumption.
  - split; [vm_compute; reflexivity|]. exists false.
    repeat split; try (vm_compute; reflexivity); try discriminate.
    intros [io Hio']. congruence.
Qed.

Lemma loaded_namespace_invariant_witness :
  globals loaded_with_pymatgen !! "_has_reader" = Some true.
Proof.
  apply (proj1 (loaded_namespace_invariant Sample.pymatgen_only loaded_with_pymatgen
                  eq_refl)).
Defined.

(** ** Constructing and re-initialising objects *)

(** X4.  Each adapter imports its own library inside [__init__], before
    anything else.  When that import raises, [__init__] raises the same
    exception without reading the file or touching [self], and so does the
    constructor call.  For pymatgen this holds even when the exception is a
    [ValueError]: the import sits outside the [try]. *)
Theorem adapter_needs_its_library `{AseLibrary} `{PymatgenLibrary}
    (env : installation) (filename : string) (e : exn) :
  (import_ase_io env = Raise e ->
   (forall self, AseStructure.__init__ env filename self = (self, Raise e)) /\
   AbstractStructure.from_file (AseStructure.cls env) filename = Raise e) /\
  (import_pymatgen env = Raise e ->
   (forall self, PymatgenStructure.__init__ env filename self = (self, Raise e)) /\
   AbstractStructure.from_file (PymatgenStructure.cls env) filename = Raise e).
Proof.
  split.
  - intros Hio. split.
    + intros self. exact (ase_init_import_fails env filename self e Hio).
    + unfold AbstractStructure.from_file, type_call,
        AbstractStructure.__init__, AbstractStructure.new, AseStructure.cls.
      rewrite (ase_init_import_fails env filename _ e Hio). reflexivity.
  - intros Himp. split.
    + intros self. exact (pym_init_import_fails env filename self e Himp).
    + apply pym_from_file_raises.
      rewrite (pym_init_import_fails env filename _ e Himp). reflexivity.
Qed.

Lemma adapter_needs_its_library_witness :
  AbstractStructure.from_file (AseStructure.cls Sample.pymatgen_only) "crystal.cif" =
    Raise (Sample.no_module "ase") /\
  AbstractStructure.from_file (PymatgenStructure.cls Sample.ase_only) "crystal.cif" =
    Raise (Sample.no_module "pymatgen").
Proof.
  split.
  - apply (proj1 (adapter_needs_its_library Sample.pymatgen_only "crystal.cif"
                    (Sample.no_module "ase")) eq_refl).
  - apply (proj2 (adapter_needs_its_library Sample.ase_only "crystal.cif"
                    (Sample.no_module "pymatgen")) eq_refl).
Defined.

(** X5.  [__init__] is all or nothing, in both adapters and on any object
    (a fresh one or one initialised before).  When it raises, [self] is
    exactly as it was.  When it reaches its end, both fields have been
    overwritten and nothing of the previous contents is left: the outcome
    is the one [__init__] has on a fresh object. *)
Theorem init_all_or_nothing `{AseLibrary} `{PymatgenLibrary}
    (env : installation) (filename : string) :
  (forall (self : AseStructure.t),
     (forall e, snd (AseStructure.__init__ env filename self) = Raise e ->
        fst (AseStructure.__init__ env filename self) = self) /\
     (forall r, snd (AseStructure.__init__ env filename self) = Return r ->
        AseStructure.__init__ env filename self =
        AseStructure.__init__ env filename AseStructure.new)) /\
  (forall (self : PymatgenStructure.t),
     (forall e, snd (PymatgenStructure.__init__ env filename self) = Raise e ->
        fst (PymatgenStructure.__init__ env filename self) = self) /\
     (forall r, snd (PymatgenStructure.__init__ env filename self) = Return r ->
        PymatgenStructure.__init__ env filename self =
        PymatgenStructure.__init__ env filename PymatgenStructure.new)).
Proof.
  split; intros self.
  - destruct (import_ase_io env) as [io|e0] eqn:Hio.
    2:{ rewrite (ase_init_import_fails env filename self e0 Hio).
        split; [reflexivity | discriminate]. }
    destruct (read io filename) as [atoms|e0] eqn:Hread.
    + rewrite (ase_init_read_ok env filename self io atoms Hio Hread),
        (ase_init_read_ok env filename AseStructure.new io atoms Hio Hread).
      split; [discriminate | reflexivity].
    + rewrite (ase_init_read_fails env filename self io e0 Hio Hread).
      split; [reflexivity | discriminate].
  - destruct (import_pymatgen env) as [pym|e0] eqn:Himp.
    2:{ rewrite (pym_init_import_fails env filename self e0 Himp).
        split; [reflexivity | discriminate]. }
    destruct (Structure_from_file pym filename) as [s|e0] eqn:Hs.
    { rewrite (pym_init_structure env filename self pym s Himp Hs),
        (pym_init_structure env filename PymatgenStructure.new pym s Himp Hs).
      split; [discriminate | reflexivity]. }
    destruct (isinstance e0 ValueError) eqn:He.
    2:{ rewrite (pym_init_escapes env filename self pym e0 Himp Hs He).
        split; [reflexivity | discriminate]. }
    destruct (Molecule_from_file pym filename) as [m|e1] eqn:Hm.
    + rewrite (pym_init_molecule env filename self pym e0 m Himp Hs He Hm),
        (pym_init_molecule env filename PymatgenStructure.new pym e0 m Himp Hs He Hm).
      split; [discriminate | reflexivity].
    + rewrite (pym_init_molecule_fails env filename self pym e0 e1 Himp Hs He Hm).
      split; [reflexivity | discriminate].
Qed.

Lemma init_all_or_nothing_witness :
  fst (AseStructure.__init__ Sample.ase_only "missing.cif" Sample.crystal) =
    Sample.crystal /\
  AseStructure.__init__ Sample.ase_only "water.xyz" Sample.crystal =
    AseStructure.__init__ Sample.ase_only "water.xyz" AseStructure.new /\
  fst (PymatgenStructure.__init__ Sample.pymatgen_only "notes.txt" Sample.pym_crystal) =
    Sample.pym_crystal /\
  PymatgenStructure.__init__ Sample.pymatgen_only "water.xyz" Sample.pym_crystal =
    PymatgenStructure.__init__ Sample.pymatgen_only "water.xyz" PymatgenStructure.new.
Proof.
  split; [|split; [|split]].
  - apply (proj1 (proj1 (init_all_or_nothing Sample.ase_only "missing.cif")
                    Sample.crystal) (Sample.no_file "missing.cif") eq_refl).
  - apply (proj2 (proj1 (init_all_or_nothing Sample.ase_only "water.xyz")
                    Sample.crystal) None eq_refl).
  - apply (proj1 (proj2 (init_all_or_nothing Sample.pymatgen_only "notes.txt")
                    Sample.pym_crystal)
             (mk_exn (Derived "ParseError" Exception) "Cannot determine file type")
             eq_refl).
  - apply (proj2 (proj2 (init_all_or_nothing Sample.pymatgen_only "water.xyz")
                    Sample.pym_crystal) (Some Sample.pym_water) eq_refl).
Defined.

(** ** Invariants over the lifetime of an object *)

Section LifetimeFacts.
Context `{AseLibrary} `{PymatgenLibrary}.
Variable env : installation.

Lemma ase_init_keeps_consistent (filename : string) (self : AseStructure.t) :
  ase_consistent self ->
  ase_consistent (fst (AseStructure.__init__ env filename self)).
Proof.
  intros Hself.
  destruct (import_ase_io env) as [io|e] eqn:Hio.
  2:{ rewrite (ase_init_import_fails env filename self e Hio). exact Hself. }
  destruct (read io filename) as [atoms|e] eqn:Hread.
  - rewrite (ase_init_read_ok env filename self io atoms Hio Hread). reflexivity.
  - rewrite (ase_init_read_fails env filename self io e Hio Hread). exact Hself.
Qed.

Lemma ase_reachable_is_consistent (self : AseStructure.t) :
  ase_reachable env self -> ase_consistent self.
Proof.
  induction 1 as [|filename self _ IH|self _ IH|self _ IH|self _ IH|self _ IH].
  - reflexivity.
  - apply ase_init_keeps_consistent, IH.
  - rewrite ase_get_cell_matrix_frame. exact IH.
  - rewrite ase_get_frac_coords_frame. exact IH.
  - rewrite ase_get_cart_coords_frame. exact IH.
  - rewrite (get_coords_frame _ _ _ (AseStructure.cls env) self
               (ase_get_frac_coords_frame self) (ase_get_cart_coords_frame self)).
    exact IH.
Qed.

Lemma pym_init_keeps_consistent (filename : string) (self : PymatgenStructure.t) :
  pym_consistent self ->
  pym_consistent (fst (PymatgenStructure.__init__ env filename self)).
Proof.
  intros Hself.
  destruct (import_pymatgen env) as [pym|e] eqn:Himp.
  2:{ rewrite (pym_init_import_fails env filename self e Himp). exact Hself. }
  destruct (Structure_from_file pym filename) as [s|e] eqn:Hs.
  { rewrite (pym_init_structure env filename self pym s Himp Hs). reflexivity. }
  destruct (isinstance e ValueError) eqn:He.
  2:{ rewrite (pym_init_escapes env filename self pym e Himp Hs He). exact Hself. }
  destruct (Molecule_from_file pym filename) as [m|e'] eqn:Hm.
  - rewrite (pym_init_molecule env filename self pym e m Himp Hs He Hm). reflexivity.
  - rewrite (pym_init_molecule_fails env filename self pym e e' Himp Hs He Hm).
    exact Hself.
Qed.

Lemma pym_reachable_is_consistent (self : PymatgenStructure.t) :
  pym_reachable env self -> pym_consistent self.
Proof.
  induction 1 as [|filename self _ IH|self _ IH|self _ IH|self _ IH|self _ IH].
  - reflexivity.
  - apply pym_init_keeps_consistent, IH.
  - rewrite pym_get_cell_matrix_frame. exact IH.
  - rewrite pym_get_frac_coords_frame. exact IH.
  - rewrite pym_get_cart_coords_frame. exact IH.
  - rewrite (get_coords_frame _ _ _ (PymatgenStructure.cls env) self
               (pym_get_frac_coords_frame self) (pym_get_cart_coords_frame self)).
    exact IH.
Qed.
End LifetimeFacts.

(** X6.  An [AseStructure] stays consistent whatever a client does with
    the methods of the class: allocation, any number of [__init__] runs
    (failed ones included) on any files, and accessor calls.  On every
    such object the flag is false while nothing has been read and is
    [all] of the [pbc] of the stored atoms afterwards; [get_cell_matrix]
    returns; and when the flag is true there are atoms with every [pbc]
    entry true, whose [get_scaled_positions()] is what [get_frac_coords]
    gives. *)
Theorem ase_object_stays_consistent `{AseLibrary} `{PymatgenLibrary}
    (env : installation) (self : AseStructure.t) :
  ase_reachable env self ->
  ase_consistent self /\
  (exists matrix, AseStructure.get_cell_matrix self = (self, Return matrix)) /\
  (AseStructure.pbc_enabled self = true ->
   exists atoms, AseStructure.structure self = Some atoms /\
     Forall (fun flag => flag = true) (atoms_pbc atoms) /\
     AseStructure.get_cell_matrix self = (self, Return (Some (atoms_cell atoms))) /\
     AseStructure.get_frac_coords self = (self, get_scaled_positions atoms)).
Proof.
  intros Hreach. pose proof (ase_reachable_is_consistent env self Hreach) as Hcons.
  split; [exact Hcons|].
  unfold ase_consistent in Hcons.
  unfold AseStructure.get_cell_matrix, AseStructure.get_frac_coords,
    AseStructure.structure_attr. py_unfold.
  destruct self as [[atoms|] flag]; cbn in *.
  - split; [destruct flag; eexists; reflexivity|].
    intros ->. exists atoms. split; [reflexivity|].
    split; [apply all_true_iff; congruence|]. split; reflexivity.
  - subst flag. split; [eexists; reflexivity | discriminate].
Qed.

Lemma ase_object_stays_consistent_witness :
  ase_consistent
    (fst (AseStructure.__init__ Sample.ase_only "missing.cif"
            (fst (AseStructure.__init__ Sample.ase_only "crystal.cif"
                    AseStructure.new)))).
Proof.
  apply (ase_object_stays_consistent Sample.ase_only).
  apply ase_after_init, ase_after_init, ase_allocated.
Defined.

(** X7.  A [PymatgenStructure] stays consistent in the same sense: on
    every object reached through the methods of the class the flag is true
    exactly when [structure] holds a periodic [Structure].  Hence
    [get_cell_matrix] returns, [get_frac_coords] can fail only on its own
    assertion (never for want of a [frac_coords] attribute), and once
    [structure] is set [get_coords] returns: fractional coordinates of a
    [Structure], cartesian coordinates of a [Molecule]. *)
Theorem pymatgen_object_stays_consistent `{AseLibrary} `{PymatgenLibrary}
    (env : installation) (self : PymatgenStructure.t) :
  pym_reachable env self ->
  pym_consistent self /\
  (exists matrix, PymatgenStructure.get_cell_matrix self = (self, Return matrix)) /\
  (forall e, snd (PymatgenStructure.get_frac_coords self) = Raise e ->
     e = mk_exn AssertionError "" /\ PymatgenStructure.pbc_enabled self = false) /\
  match PymatgenStructure.structure self with
  | PymatgenStructure.a_Structure s =>
      AbstractStructure.get_coords (cls := PymatgenStructure.cls env) self =
        (self, Return (structure_frac_coords s))
  | PymatgenStructure.a_Molecule m =>
      AbstractStructure.get_coords (cls := PymatgenStructure.cls env) self =
        (self, Return (molecule_cart_coords m))
  | PymatgenStructure.NoneType =>
      AbstractStructure.get_coords (cls := PymatgenStructure.cls env) self =
        (self, Raise (mk_exn AttributeError "cart_coords"))
  end.
Proof.
  intros Hreach. pose proof (pym_reachable_is_consistent env self Hreach) as Hcons.
  split; [exact Hcons|].
  unfold pym_consistent in Hcons.
  unfold AbstractStructure.get_coords, PymatgenStructure.get_cell_matrix.
  cbn [AbstractStructure.pbc_enabled AbstractStructure.get_frac_coords
       AbstractStructure.get_cart_coords PymatgenStructure.cls].
  unfold PymatgenStructure.get_frac_coords, PymatgenStructure.get_cart_coords.
  py_unfold.
  destruct self as [[|s|m] flag]; cbn in *; subst flag; cbn.
  - split; [eexists; reflexivity|]. split; [|reflexivity].
    intros e [= <-]. split; reflexivity.
  - split; [eexists; reflexivity|]. split; [discriminate | reflexivity].
  - split; [eexists; reflexivity|]. split; [|reflexivity].
    intros e [= <-]. split; reflexivity.
Qed.

Lemma pymatgen_object_stays_consistent_witness :
  pym_consistent
    (fst (PymatgenStructure.__init__ Sample.pymatgen_only "water.xyz"
            (fst (PymatgenStructure.__init__ Sample.pymatgen_only "crystal.cif"
                    PymatgenStructure.new)))).
Proof.
  apply (pymatgen_object_stays_consistent Sample.pymatgen_only).
  apply pym_after_init, pym_after_init, pym_allocated.
Defined.

(** ** The accessors on an initialised object *)

(** X8.  Cartesian coordinates need no periodicity.  On an object
    initialised by [__init__], whatever its flag, [get_cart_coords] of an
    [AseStructure] is [get_positions()] of the atoms read, and
    [get_cart_coords] of a [PymatgenStructure] returns the [cart_coords]
    of whichever object was read, [Structure] or [Molecule]. *)
Theorem cart_coords_always_available `{AseLibrary} `{PymatgenLibrary}
    (env : installation) (filename : string) :
  (forall self : AseStructure.t,
     AseStructure.initialised env filename self ->
     exists io atoms, import_ase_io env = Return io /\
       read io filename = Return atoms /\
       AseStructure.get_cart_coords self = (self, get_positions atoms)) /\
  (forall self : PymatgenStructure.t,
     PymatgenStructure.initialised env filename self ->
     exists pym, import_pymatgen env = Return pym /\
       match Structure_from_file pym filename with
       | Return s =>
           PymatgenStructure.get_cart_coords self =
             (self, Return (structure_cart_coords s))
       | Raise _ =>
           exists m, Molecule_from_file pym filename = Return m /\
             PymatgenStructure.get_cart_coords self =
               (self, Return (molecule_cart_coords m))
       end).
Proof.
  split; intros self Hinit.
  - destruct (ase_initialised_inv env filename self Hinit)
      as (io & atoms & Hio & Hread & ->).
    exists io, atoms. repeat split; assumption.
  - destruct (pym_initialised_inv env filename self Hinit)
      as (pym & Himp & [(s & Hs & ->) | (e & m & Hs & He & Hm & ->)]);
      exists pym; (split; [assumption|]); rewrite Hs.
    + reflexivity.
    + exists m. split; [assumption | reflexivity].
Qed.

Lemma cart_coords_always_available_witness :
  (exists io atoms, import_ase_io Sample.both_installed = Return io /\
     read io "slab.traj" = Return atoms /\
     AseStructure.get_cart_coords Sample.slab = (Sample.slab, get_positions atoms)) /\
  PymatgenStructure.get_cart_coords Sample.pym_water =
    (Sample.pym_water, Return "cart_coords of water").
Proof.
  destruct (cart_coords_always_available Sample.both_installed "slab.traj")
    as (Hase & _).
  destruct (cart_coords_always_available Sample.both_installed "water.xyz")
    as (_ & Hpym).
  split.
  - apply Hase. exists None. reflexivity.
  - destruct (Hpym Sample.pym_water) as (pym & Himp & Hcart).
    { exists (Some Sample.pym_water). reflexivity. }
    injection Himp as <-. cbn in Hcart.
    destruct Hcart as (m & Hm & Hcart). injection Hm as <-. exact Hcart.
Defined.

Lemma all_false_of_In (flags : list bool) :
  In false flags -> all flags = false.
Proof.
  unfold all. induction flags as [|flag flags IH]; cbn; [tauto|].
  intros [-> | Hin]; [reflexivity|].
  rewrite (IH Hin). apply andb_false_r.
Qed.

(** X9.  From file to coordinates with ASE.  When [ase.io.read] returns
    atoms, [AseStructure.from_file] returns an object on which
    [get_coords] is [get_scaled_positions()] and [get_cell_matrix] is the
    cell if every [pbc] entry is true, and [get_positions()] and [None]
    otherwise.  In particular a structure periodic in only some directions
    (a slab, a wire) is handled as non-periodic. *)
Theorem ase_file_to_coords `{AseLibrary} `{PymatgenLibrary}
    (env : installation) (io : ase_io) (filename : string) (atoms : Atoms) :
  import_ase_io env = Return io ->
  read io filename = Return atoms ->
  exists self : AseStructure.t,
    AbstractStructure.from_file (AseStructure.cls env) filename = Return self /\
    AbstractStructure.get_coords (cls := AseStructure.cls env) self =
      (self, if all (atoms_pbc atoms) then get_scaled_positions atoms
             else get_positions atoms) /\
    AseStructure.get_cell_matrix self =
      (self, Return (if all (atoms_pbc atoms) then Some (atoms_cell atoms) else None)) /\
    (In false (atoms_pbc atoms) ->
     AbstractStructure.get_coords (cls := AseStructure.cls env) self =
       (self, get_positions atoms) /\
     AseStructure.get_cell_matrix self = (self, Return None)).
Proof.
  intros Hio Hread. eexists.
  split; [exact (ase_from_file_ok env filename io atoms Hio Hread)|].
  assert (Hboth :
    AbstractStructure.get_coords (cls := AseStructure.cls env)
      {| AseStructure.structure := Some atoms;
         AseStructure.pbc_enabled := all (atoms_pbc atoms) |} =
      ({| AseStructure.structure := Some atoms;
          AseStructure.pbc_enabled := all (atoms_pbc atoms) |},
       if all (atoms_pbc atoms) then get_scaled_positions atoms
       else get_positions atoms) /\
    AseStructure.get_cell_matrix
      {| AseStructure.structure := Some atoms;
         AseStructure.pbc_enabled := all (atoms_pbc atoms) |} =
      ({| AseStructure.structure := Some atoms;
          AseStructure.pbc_enabled := all (atoms_pbc atoms) |},
       Return (if all (atoms_pbc atoms) then Some (atoms_cell atoms) else None))).
  { unfold AbstractStructure.get_coords, AseStructure.get_cell_matrix.
    cbn [AbstractStructure.pbc_enabled AbstractStructure.get_frac_coords
         AbstractStructure.get_cart_coords AseStructure.cls].
    unfold AseStructure.get_frac_coords, AseStructure.get_cart_coords,
      AseStructure.structure_attr. py_unfold. cbn.
    destruct (all (atoms_pbc atoms)); split; reflexivity. }
  destruct Hboth as [Hcoords Hcell].
  split; [exact Hcoords|]. split; [exact Hcell|].
  intros Hin. rewrite Hcoords, Hcell, (all_false_of_In _ Hin). split; reflexivity.
Qed.

Lemma ase_file_to_coords_witness :
  exists self : AseStructure.t,
    AbstractStructure.from_file (AseStructure.cls Sample.ase_only) "slab.traj" =
      Return self /\
    AbstractStructure.get_coords (cls := AseStructure.cls Sample.ase_only) self =
      (self, Return "positions of slab") /\
    AseStructure.get_cell_matrix self = (self, Return None).
Proof.
  destruct (ase_file_to_coords Sample.ase_only Sample.ase_module "slab.traj"
              ([true; true; false], "slab") eq_refl eq_refl)
    as (self & Hfile & _ & _ & Hslab).
  exists self. split; [exact Hfile|]. apply Hslab. cbn. tauto.
Defined.

(** X10.  When [get_cell_matrix] says there is no cell, the other
    accessors agree, in both adapters and on any object: [get_frac_coords]
    fails its assertion and [get_coords] is [get_cart_coords]. *)
Theorem no_cell_means_cartesian `{AseLibrary} `{PymatgenLibrary} (env : installation) :
  (forall self : AseStructure.t,
     snd (AseStructure.get_cell_matrix self) = Return None ->
     AseStructure.get_frac_coords self = (self, Raise (mk_exn AssertionError "")) /\
     AbstractStructure.get_coords (cls := AseStructure.cls env) self =
       AseStructure.get_cart_coords self) /\
  (forall self : PymatgenStructure.t,
     snd (PymatgenStructure.get_cell_matrix self) = Return None ->
     PymatgenStructure.get_frac_coords self = (self, Raise (mk_exn AssertionError "")) /\
     AbstractStructure.get_coords (cls := PymatgenStructure.cls env) self =
       PymatgenStructure.get_cart_coords self).
Proof.
  split; intros self Hcell.
  - assert (Hflag : AseStructure.pbc_enabled self = false).
    { revert Hcell.
      unfold AseStructure.get_cell_matrix, AseStructure.structure_attr. py_unfold.
      destruct self as [[atoms|] []]; cbn; congruence. }
    split; [exact (ase_get_frac_coords_disabled self Hflag)|].
    unfold AbstractStructure.get_coords. py_unfold.
    cbn [AbstractStructure.pbc_enabled AseStructure.cls].
    rewrite Hflag. reflexivity.
  - assert (Hflag : PymatgenStructure.pbc_enabled self = false).
    { revert Hcell. unfold PymatgenStructure.get_cell_matrix. py_unfold.
      destruct self as [[|s|m] []]; cbn; congruence. }
    split; [exact (pym_get_frac_coords_disabled self Hflag)|].
    unfold AbstractStructure.get_coords. py_unfold.
    cbn [AbstractStructure.pbc_enabled PymatgenStructure.cls].
    rewrite Hflag. reflexivity.
Qed.

Lemma no_cell_means_cartesian_witness :
  AseStructure.get_frac_coords Sample.slab =
    (Sample.slab, Raise (mk_exn AssertionError "")) /\
  PymatgenStructure.get_frac_coords Sample.pym_water =
    (Sample.pym_water, Raise (mk_exn AssertionError "")).
Proof.
  destruct (no_cell_means_cartesian Sample.both_installed) as (Hase & Hpym).
  split.
  - apply (Hase Sample.slab). reflexivity.
  - apply (Hpym Sample.pym_water). reflexivity.
Defined.

(** ** The factory, end to end *)

(** X11.  What a client gets from [structure_from_file].  Importing the
    module and calling the factory returns a value exactly when ASE is
    importable and [ase.io.read] returns atoms for the file, and the value
    is then the [AseStructure] holding those atoms with its flag computed
    from their [pbc].  In every other installation and on every other file
    the call raises. *)
Theorem factory_returns_iff `{AseLibrary} `{PymatgenLibrary}
    (env : installation) (filename : string) (value : option handler) :
  run_client env (structure_from_file env filename) = Return value <->
  exists io atoms,
    import_ase_io env = Return io /\ read io filename = Return atoms /\
    value = Some (Ase {| AseStructure.structure := Some atoms;
                         AseStructure.pbc_enabled := all (atoms_pbc atoms) |}).
Proof.
  unfold run_client. split.
  - destruct (import_module env) as [m|e] eqn:Hload; [|discriminate].
    destruct (import_module_inv env m Hload)
      as [(io & Hio & ->) | (e & pym & Hio & He & Himp & ->)].
    + rewrite structure_from_file_with_ase. cbn [snd].
      destruct (read io filename) as [atoms|e] eqn:Hread.
      * rewrite (ase_from_file_ok env filename io atoms Hio Hread). cbn.
        intros [= <-]. exists io, atoms. repeat split; assumption.
      * rewrite (ase_from_file_read_fails env filename io e Hio Hread). discriminate.
    + rewrite structure_from_file_with_pymatgen. cbn [snd].
      destruct (AbstractStructure.from_file (PymatgenStructure.cls env) filename)
        as [self|e'] eqn:Hfile; [|discriminate].
      destruct (pym_from_file_never_returns env filename self Hfile).
  - intros (io & atoms & Hio & Hread & ->).
    rewrite (import_module_ase env io Hio), structure_from_file_with_ase.
    cbn [snd]. rewrite (ase_from_file_ok env filename io atoms Hio Hread).
    reflexivity.
Qed.

Lemma factory_returns_iff_witness :
  run_client Sample.both_installed
    (structure_from_file Sample.both_installed "water.xyz") =
  Return (Some (Ase Sample.water)).
Proof.
  apply (proj2 (factory_returns_iff Sample.both_installed "water.xyz"
                  (Some (Ase Sample.water)))).
  exists Sample.ase_module, ([false; false; false], "water").
  repeat split.
Defined.

(** X12.  With ASE importable the factory never consults pymatgen: two
    installations with the same [ase.io] module give a client the same
    outcome on every file, whatever [import pymatgen] does in either. *)
Theorem factory_ignores_pymatgen_with_ase `{AseLibrary} `{PymatgenLibrary}
    (env env' : installation) (io : ase_io) (filename : string) :
  import_ase_io env = Return io ->
  import_ase_io env' = Return io ->
  run_client env (structure_from_file env filename) =
  run_client env' (structure_from_file env' filename).
Proof.
  intros Hio Hio'. unfold run_client.
  rewrite (import_module_ase env io Hio), (import_module_ase env' io Hio').
  rewrite !structure_from_file_with_ase. cbn [snd].
  destruct (read io filename) as [atoms|e] eqn:Hread.
  - rewrite (ase_from_file_ok env filename io atoms Hio Hread),
      (ase_from_file_ok env' filename io atoms Hio' Hread). reflexivity.
  - rewrite (ase_from_file_read_fails env filename io e Hio Hread),
      (ase_from_file_read_fails env' filename io e Hio' Hread). reflexivity.
Qed.

Lemma factory_ignores_pymatgen_with_ase_witness :
  run_client Sample.ase_only (structure_from_file Sample.ase_only "crystal.cif") =
  run_client Sample.both_installed
    (structure_from_file Sample.both_installed "crystal.cif").
Proof.
  apply (factory_ignores_pymatgen_with_ase Sample.ase_only Sample.both_installed
           Sample.ase_module "crystal.cif" eq_refl eq_refl).
Defined.

(** X13.  The factory only reads the module globals: whatever the
    namespace it runs in (loaded or not) and whatever its outcome, the
    global names and the warnings are as before. *)
Theorem factory_leaves_namespace `{AseLibrary} `{PymatgenLibrary}
    (env : installation) (filename : string) (m : namespace) :
  fst (structure_from_file env filename m) = m.
Proof.
  unfold structure_from_file, lookup_global. py_unfold.
  destruct (globals m !! "_has_ase") as [[]|]; cbn.
  - destruct (AbstractStructure.from_file (AseStructure.cls env) filename); reflexivity.
  - destruct (globals m !! "_has_pymatgen") as [[]|]; cbn; try reflexivity.
    destruct (AbstractStructure.from_file (PymatgenStructure.cls env) filename);
      reflexivity.
  - reflexivity.
Qed.

(** X14.  What precedes the configuration error.  When both imports fail
    with an [ImportError], the module body has, by the time it raises
    [NotImplementedError], bound all three flags to false and issued the
    two warnings, the one about ASE first, both of category
    [ImportWarning]. *)
Theorem both_warnings_before_error `{AseLibrary} `{PymatgenLibrary}
    (env : installation) (e1 e2 : exn) :
  import_ase_io env = Raise e1 ->
  isinstance e1 ImportError = true ->
  import_pymatgen env = Raise e2 ->
  isinstance e2 ImportError = true ->
  module_body env {| globals := ∅; warnings := [] |} =
  ({| globals := {[ "_has_reader" := false; "_has_ase" := false;
                    "_has_pymatgen" := false ]};
      warnings :=
        [("Unable to import ASE for reading file structure, trying other librairies",
          "ImportWarning");
         ("Unable to import Pymatgen for reading file structure, trying other librairies",
          "ImportWarning")] |},
   Raise (mk_exn NotImplementedError
            "Cannot find any suitable library for reading file structures")).
Proof.
  intros Hio He1 Hpym He2. unfold module_body. py_unfold.
  rewrite Hio, He1. cbn -[lookup insert empty].
  rewrite Hpym, He2. vm_compute. reflexivity.
Qed.

Lemma both_warnings_before_error_witness :
  length (warnings (fst (module_body Sample.nothing_installed
                           {| globals := ∅; warnings := [] |}))) = 2.
Proof.
  rewrite (both_warnings_before_error Sample.nothing_installed
             (Sample.no_module "ase") (Sample.no_module "pymatgen")
             eq_refl eq_refl eq_refl eq_refl).
  reflexivity.
Defined.
